(** * Trainer: batched training, inference and the epoch control loop

    A shallow embedding of [src/Trainer.py].  The numeric runtime (torch,
    numpy, scipy) and the predictive model are collaborators of the class:
    they are the [Variable]s of [Section Trainer].  What is embedded in full
    is the control logic of the class: the cursor arithmetic of the three
    batch loops, list slicing, the slice assignment into [yhat], the two
    stopping policies and the checkpoint rule. *)

From Stdlib Require Import String.
From Stdlib Require Import ZArith List Bool Arith Lia.
From Stdlib Require Import Floats.SpecFloat.
Import ListNotations.
Open Scope list_scope.

Set Implicit Arguments.
Set Warnings "-notation-for-abbreviation".

(** ** Python floats

    Python's [float] and numpy's [float64] are IEEE 754 binary64 numbers.
    They are modelled by the Standard Library's [spec_float] at precision 53
    and exponent bound 1024, whose operations are plain functions. *)

Module PyFloat.

Definition prec : Z := 53.
Definition emax : Z := 1024.

Definition float := spec_float.

(** [float('inf')], [-float('inf')] and the result of [0.0/0.0]. *)
Definition inf : float := S754_infinity false.
Definition neg_inf : float := SFopp inf.
Definition nan : float := S754_nan.
Definition zero : float := S754_zero false.

Definition lt (x y : float) : bool := SFltb x y.
Definition gt (x y : float) : bool := SFltb y x.
Definition add : float -> float -> float := SFadd prec emax.
Definition sub : float -> float -> float := SFsub prec emax.
Definition div : float -> float -> float := SFdiv prec emax.
Definition abs : float -> float := SFabs.

Definition of_nat (n : nat) : float :=
  binary_normalize prec emax (Z.of_nat n) 0 false.

(** A decimal literal [n / 10^k] rounded to the nearest binary64. *)
Definition decimal (n : nat) (pow10 : nat) : float :=
  div (of_nat n) (of_nat (10 ^ pow10)).

(** The literal [0.0001] of the convergence test: [0x1.a36e2eb1c432dp-14]. *)
Definition tolerance : float := S754_finite false 7378697629483821 (-66).

(** An ordinary number: neither NaN nor an infinity. *)
Definition is_finite (x : float) : bool :=
  match x with
  | S754_zero _ | S754_finite _ _ _ => true
  | S754_infinity _ | S754_nan => false
  end.

Definition is_nan (x : float) : bool :=
  match x with S754_nan => true | _ => false end.

(** Where a number stands in the order of the floats: the sign class first
    ([-inf], negative, zero, positive, [+inf]), then exponent and mantissa,
    both negated for negative numbers.  NaN has no place; its key is not
    used. *)
Definition key (x : float) : Z * Z * Z :=
  match x with
  | S754_infinity true => (-2, 0, 0)
  | S754_finite true m e => (-1, - e, - Z.pos m)
  | S754_zero _ | S754_nan => (0, 0, 0)
  | S754_finite false m e => (1, e, Z.pos m)
  | S754_infinity false => (2, 0, 0)
  end%Z.

Definition key_lt (a b : Z * Z * Z) : Prop :=
  let '(a1, a2, a3) := a in
  let '(b1, b2, b3) := b in
  (a1 < b1 \/ (a1 = b1 /\ (a2 < b2 \/ (a2 = b2 /\ a3 < b3))))%Z.

(** numpy's sum of a contiguous array of floats.  Fewer than 8 values are
    added from left to right, starting from [0.0].  Up to 128 values are
    added in eight lanes, lane [j] holding the values at the positions
    [j], [j + 8], [j + 16], ... of the full blocks of eight; the lanes are
    then added in pairs and the values left over are added from left to
    right.  More than 128 values are split in two halves, the first of a
    length that is a multiple of 8, which are summed on their own. *)
Fixpoint add_lanes (r l : list float) : list float :=
  match r, l with
  | x :: r', y :: l' => add x y :: add_lanes r' l'
  | _, _ => r
  end.

Fixpoint block_sums (fuel : nat) (r l : list float)
  : list float * list float :=
  match fuel with
  | O => (r, l)
  | S fuel' =>
      if (8 <=? length l)%nat
      then block_sums fuel' (add_lanes r (firstn 8 l)) (skipn 8 l)
      else (r, l)
  end.

Definition unrolled_sum (l : list float) : float :=
  let '(r, rest) := block_sums (length l) (firstn 8 l) (skipn 8 l) in
  match r with
  | [r0; r1; r2; r3; r4; r5; r6; r7] =>
      fold_left add rest
                (add (add (add r0 r1) (add r2 r3))
                     (add (add r4 r5) (add r6 r7)))
  | _ => fold_left add l zero
  end.

Fixpoint pairwise_sum (fuel : nat) (l : list float) : float :=
  let n := length l in
  if (n <? 8)%nat then fold_left add l zero
  else if (n <=? 128)%nat then unrolled_sum l
  else match fuel with
       | O => unrolled_sum l
       | S fuel' =>
           let n2 := (n / 2 - (n / 2) mod 8)%nat in
           add (pairwise_sum fuel' (firstn n2 l))
               (pairwise_sum fuel' (skipn n2 l))
       end.

(** [np.mean] of a list of floats: numpy's sum, added to the initial [0.0]
    of the reduction, divided by the length.  The mean of the empty list is
    [0.0/0.0], that is NaN. *)
Definition np_mean (l : list float) : float :=
  div (add zero (pairwise_sum (length l) l)) (of_nat (length l)).

End PyFloat.

Import PyFloat.

(** ** Python lists *)

(** [l[i:j]] for non-negative [i], [j]: the elements at the positions
    [i <= k < min j (len l)]; empty when [j <= i] or [len l <= i]. *)
Definition slice {A : Type} (l : list A) (i j : nat) : list A :=
  firstn (j - i) (skipn i l).

(** [l[-1]]: raises [IndexError] on the empty list. *)
Fixpoint last_item {A : Type} (l : list A) : option A :=
  match l with
  | [] => None
  | [x] => Some x
  | _ :: l' => last_item l'
  end.

(** ** Results of fallible code *)

Inductive error : Type :=
| OutOfFuel    (* the loop did not finish within the fuel given *)
| ShapeError   (* torch: shapes of the two sides of an assignment differ *)
| IndexError   (* Python: index out of range *)
| ZeroDivisionError. (* Python: integer division by zero *)

Inductive result (A : Type) : Type :=
| Ok (a : A)
| Err (e : error).

Arguments Err {A} e.

Definition bind {A B : Type} (r : result A) (k : A -> result B) : result B :=
  match r with
  | Ok a => k a
  | Err e => Err e
  end.

Notation "x <- r ;; k" := (bind r (fun x => k))
  (at level 61, r at next level, right associativity).

(** [a // b] on non-negative integers. *)
Definition floor_div (a b : nat) : result nat :=
  if b =? 0 then Err ZeroDivisionError else Ok (a / b).

(** [while cond: body], with fuel for the number of iterations. *)
Fixpoint while {S : Type} (cond : S -> bool) (body : S -> result S)
         (fuel : nat) (s : S) {struct fuel} : result S :=
  if cond s then
    match fuel with
    | O => Err OutOfFuel
    | Datatypes.S fuel' => s' <- body s ;; while cond body fuel' s'
    end
  else Ok s.

(** A loop body either falls through to the next iteration or breaks. *)
Inductive flow (S : Type) : Type :=
| Continue (s : S)
| Break (s : S).

(** [for x in xs: body], where the body may [break]. *)
Fixpoint for_each {X S : Type} (body : X -> S -> result (flow S))
         (xs : list X) (s : S) : result S :=
  match xs with
  | [] => Ok s
  | x :: xs' =>
      f <- body x s ;;
      match f with
      | Continue s' => for_each body xs' s'
      | Break s' => Ok s'
      end
  end.

(** [yhat[i:j] = v] on a one-dimensional tensor.  The slice is clipped to the
    tensor; [v] must have as many entries as the slice, except that a single
    value (what [squeeze] leaves of a batch of one) is broadcast. *)
Definition assign_slice (yhat : list float) (i j : nat) (v : list float)
  : result (list float) :=
  let n := length (slice yhat i j) in
  if length v =? n then Ok (firstn i yhat ++ v ++ skipn (i + n) yhat)
  else match v with
       | [x] => Ok (firstn i yhat ++ repeat x n ++ skipn (i + n) yhat)
       | _ => Err ShapeError
       end.

(** ** The class *)

(** The attributes [__init__] stores that the control logic reads. *)
Record Trainer : Type := {
  epochs : nat;
  train_batch_size : nat;
  predict_batch_size : nat;
  pretraining : bool;
  data_name : string
}.

Section Trainer.

(** An example is a pair [(words, spans)]; its content is never inspected. *)
Variable Example : Type.
(** The pretraining tensors, passed along and never inspected. *)
Variable Pretrain : Type.
(** What the model returns for a batch, of shape [batch] or [batch, 1]. *)
Variable Tensor : Type.
(** The model's parameters together with the optimizer's state. *)
Variable Model : Type.

(** [Model(device, **kwargs).to(device)] of [_initialize_trainer_model]. *)
Variable new_model : Model.
(** [self._model(words, spans)]. *)
Variable forward : Model -> list Example -> Tensor.
(** [t.squeeze()], read as the list of its values. *)
Variable squeeze : Tensor -> list float.
(** [SmoothL1Loss] and [L1Loss] applied to a prediction and to
    [torch.from_numpy(np.array(actual)).float()], read with [.item()]. *)
Variable smooth_loss : list float -> list float -> float.
Variable l1_loss : list float -> list float -> float.
(** [optimizer.zero_grad(); curr_loss.backward(); optimizer.step()] for the
    loss of the batch [(xs, ys)]. *)
Variable backward_step : Model -> list Example -> list float -> Model.
(** [pearsonr(preds, ys)[0]]. *)
Variable pearsonr : list float -> list float -> float.

Variable self : Trainer.

Definition _custom_loss (predicted : Tensor) (actual : list float)
           (pretrain_x pretrain_actual : option Pretrain) : float :=
  let actual_torch := actual in
  let domain_loss := smooth_loss (squeeze predicted) actual_torch in
  domain_loss.

(** *** The batch loop of [train] *)

Record TrainCursor : Type := {
  tc_i : nat;                    (* bidx_i *)
  tc_j : nat;                    (* bidx_j *)
  tc_model : Model;              (* self._model and the optimizer *)
  tc_losses : list float;        (* batch_losses *)
  tc_fed : list (nat * nat)      (* the slices [i:j] fed so far *)
}.

Section TrainEpoch.

Variables (_X : list Example) (_Y : list float).
Variables (pretrain_x pretrain_actual : Pretrain).

(** One forward pass, loss, backward pass and optimizer step on the slice
    [bidx_i:bidx_j]: the body repeated at lines 136-156 and 161-179. *)
Definition train_batch (c : TrainCursor) : TrainCursor :=
  let xs := slice _X (tc_i c) (tc_j c) in
  let ys := slice _Y (tc_i c) (tc_j c) in
  let model_out := forward (tc_model c) xs in
  let curr_loss :=
    if pretraining self
    then _custom_loss model_out ys (Some pretrain_x) (Some pretrain_actual)
    else _custom_loss model_out ys None None in
  {| tc_i := tc_i c;
     tc_j := tc_j c;
     tc_model := backward_step (tc_model c) xs ys;
     tc_losses := tc_losses c ++ [curr_loss];
     tc_fed := tc_fed c ++ [(tc_i c, tc_j c)] |}.

(** [bidx_i = bidx_j; bidx_j = bidx_i + self.train_batch_size]. *)
Definition train_advance (c : TrainCursor) : TrainCursor :=
  {| tc_i := tc_j c;
     tc_j := tc_j c + train_batch_size self;
     tc_model := tc_model c;
     tc_losses := tc_losses c;
     tc_fed := tc_fed c |}.

(** The body of [while bidx_j < total_obs]; the block for the last slice,
    [if bidx_j >= total_obs], is part of this body. *)
Definition train_body (c : TrainCursor) : result TrainCursor :=
  let total_obs := length _X in
  let c := train_batch c in
  let c := train_advance c in
  if total_obs <=? tc_j c then Ok (train_batch c) else Ok c.

Definition train_epoch (fuel : nat) (m : Model) : result TrainCursor :=
  let total_obs := length _X in
  while (fun c => tc_j c <? total_obs) train_body fuel
        {| tc_i := 0;
           tc_j := train_batch_size self;
           tc_model := m;
           tc_losses := [];
           tc_fed := [] |}.

End TrainEpoch.

(** *** [predict] and [predict_grad] *)

Record PredictCursor : Type := {
  pc_i : nat;                    (* bidx_i *)
  pc_j : nat;                    (* bidx_j *)
  pc_yhat : list float;          (* yhat *)
  pc_losses : list float;        (* batch_losses *)
  pc_fed : list (nat * nat)      (* the slices [i:j] fed so far *)
}.

Section Predict.

Variable _model : Model.
Variables (data_x : list Example) (data_y : list float).
Variable loss : option string.
Variables (pretrain_x pretrain_actual : Pretrain).

(** The body repeated at lines 290-306 and 312-326: forward pass on the slice,
    assignment into [yhat], loss of the slice. *)
Definition predict_batch (c : PredictCursor) : result PredictCursor :=
  let xs := slice data_x (pc_i c) (pc_j c) in
  let ys := slice data_y (pc_i c) (pc_j c) in
  let model_out := forward _model xs in
  yhat <- assign_slice (pc_yhat c) (pc_i c) (pc_j c) (squeeze model_out) ;;
  let curr_loss :=
    if pretraining self
    then _custom_loss model_out ys (Some pretrain_x) (Some pretrain_actual)
    else match loss with
         | Some "l1"%string => l1_loss (squeeze model_out) ys
         | _ => _custom_loss model_out ys None None
         end in
  Ok {| pc_i := pc_i c;
        pc_j := pc_j c;
        pc_yhat := yhat;
        pc_losses := pc_losses c ++ [curr_loss];
        pc_fed := pc_fed c ++ [(pc_i c, pc_j c)] |}.

(** [bidx_i = bidx_j; bidx_j = bidx_i + self.train_batch_size] (lines 262-263
    and 308-309). *)
Definition predict_advance (c : PredictCursor) : PredictCursor :=
  {| pc_i := pc_j c;
     pc_j := pc_j c + train_batch_size self;
     pc_yhat := pc_yhat c;
     pc_losses := pc_losses c;
     pc_fed := pc_fed c |}.

Definition predict_body (c : PredictCursor) : result PredictCursor :=
  let total_obs := length data_x in
  c <- predict_batch c ;;
  let c := predict_advance c in
  if total_obs <=? pc_j c then predict_batch c else Ok c.

Definition predict_loop (fuel : nat) : result PredictCursor :=
  let total_obs := length data_x in
  while (fun c => pc_j c <? total_obs) predict_body fuel
        {| pc_i := 0;
           pc_j := predict_batch_size self;
           pc_yhat := repeat zero total_obs;
           pc_losses := [];
           pc_fed := [] |}.

(** [predict] returns [(np.mean(batch_losses), yhat.detach())]. *)
Definition predict (fuel : nat) : result (float * list float) :=
  c <- predict_loop fuel ;;
  Ok (np_mean (pc_losses c), pc_yhat c).

(** [predict_grad]: the same cursor and assignments, no loss. *)
Definition predict_grad_batch (c : PredictCursor) : result PredictCursor :=
  let xs := slice data_x (pc_i c) (pc_j c) in
  let model_out := forward _model xs in
  yhat <- assign_slice (pc_yhat c) (pc_i c) (pc_j c) (squeeze model_out) ;;
  Ok {| pc_i := pc_i c;
        pc_j := pc_j c;
        pc_yhat := yhat;
        pc_losses := pc_losses c;
        pc_fed := pc_fed c ++ [(pc_i c, pc_j c)] |}.

Definition predict_grad_body (c : PredictCursor) : result PredictCursor :=
  let total_obs := length data_x in
  c <- predict_grad_batch c ;;
  let c := predict_advance c in
  if total_obs <=? pc_j c then predict_grad_batch c else Ok c.

Definition predict_grad_loop (fuel : nat) : result PredictCursor :=
  let total_obs := length data_x in
  while (fun c => pc_j c <? total_obs) predict_grad_body fuel
        {| pc_i := 0;
           pc_j := predict_batch_size self;
           pc_yhat := repeat zero total_obs;
           pc_losses := [];
           pc_fed := [] |}.

Definition predict_grad (fuel : nat) : result (list float) :=
  c <- predict_grad_loop fuel ;;
  Ok (pc_yhat c).

End Predict.

(** *** The epoch loop of [train] *)

(** What one epoch did: the slices fed to the model, the model it left, the
    epoch's metrics, whether the checkpoint file was written and whether the
    loop broke.  The log is not a variable of the source; it records the
    run. *)
Record EpochLog : Type := {
  lg_epoch : nat;
  lg_fed : list (nat * nat);
  lg_model : Model;
  lg_train_loss : float;
  lg_dev_loss : option float;
  lg_dev_r : option float;
  lg_saved : bool;
  lg_break : bool
}.

Record TrainState : Type := {
  st_model : Model;              (* self._model and the optimizer *)
  best_loss : float;
  best_r : float;
  train_losses : list float;
  dev_losses : list float;
  dev_rs : list float;
  bad_count : nat;
  st_saved : list Model;         (* what was written to best_model_file *)
  st_log : list EpochLog         (* one entry per epoch entered *)
}.

Section Train.

Variables (train_X : list Example) (train_Y : list float).
Variable dev : list Example * list float.
Variables (pretrain_x pretrain_actual : Pretrain).
Variable fuel : nat.

Definition megaverid : bool := (data_name self =? "megaverid")%string.

(** Lines 189-200: the branch [self.data_name == "megaverid"]. *)
Definition convergence_branch (epoch : nat) (st : TrainState)
           (c : TrainCursor) (curr_train_loss : float)
  : result (flow TrainState) :=
  let improved := lt curr_train_loss (best_loss st) in
  let saved := if improved then st_saved st ++ [tc_model c] else st_saved st in
  let best := if improved then curr_train_loss else best_loss st in
  converged <-
    (if epoch =? 0 then Ok false
     else match last_item (train_losses st) with
          | Some prev => Ok (lt (abs (sub curr_train_loss prev)) tolerance)
          | None => Err IndexError
          end) ;;
  let entry := {| lg_epoch := epoch;
                  lg_fed := tc_fed c;
                  lg_model := tc_model c;
                  lg_train_loss := curr_train_loss;
                  lg_dev_loss := None;
                  lg_dev_r := None;
                  lg_saved := improved;
                  lg_break := converged |} in
  if converged
  then Ok (Break {| st_model := tc_model c;
                    best_loss := best;
                    best_r := best_r st;
                    train_losses := train_losses st;
                    dev_losses := dev_losses st;
                    dev_rs := dev_rs st;
                    bad_count := bad_count st;
                    st_saved := saved;
                    st_log := st_log st ++ [entry] |})
  else Ok (Continue {| st_model := tc_model c;
                       best_loss := best;
                       best_r := best_r st;
                       train_losses := train_losses st ++ [curr_train_loss];
                       dev_losses := dev_losses st;
                       dev_rs := dev_rs st;
                       bad_count := bad_count st;
                       st_saved := saved;
                       st_log := st_log st ++ [entry] |}).

(** Lines 202-238: every other data set. *)
Definition validation_branch (epoch : nat) (st : TrainState)
           (c : TrainCursor) (curr_train_loss : float)
  : result (flow TrainState) :=
  let '(dev_x, dev_y) := dev in
  p <- predict (tc_model c) dev_x dev_y None pretrain_x pretrain_actual fuel ;;
  let '(curr_dev_loss, curr_dev_preds) := p in
  let curr_dev_r := pearsonr curr_dev_preds dev_y in
  let improved := gt curr_dev_r (best_r st) in
  let saved := if improved then st_saved st ++ [tc_model c] else st_saved st in
  let best := if improved then curr_dev_r else best_r st in
  bad <-
    (if epoch =? 0 then Ok (bad_count st)
     else match last_item (dev_rs st) with
          | Some prev => Ok (if lt curr_dev_r prev then bad_count st + 1 else 0)
          | None => Err IndexError
          end) ;;
  let entry := {| lg_epoch := epoch;
                  lg_fed := tc_fed c;
                  lg_model := tc_model c;
                  lg_train_loss := curr_train_loss;
                  lg_dev_loss := Some curr_dev_loss;
                  lg_dev_r := Some curr_dev_r;
                  lg_saved := improved;
                  lg_break := 3 <=? bad |} in
  if 3 <=? bad
  then Ok (Break {| st_model := tc_model c;
                    best_loss := best_loss st;
                    best_r := best;
                    train_losses := train_losses st;
                    dev_losses := dev_losses st;
                    dev_rs := dev_rs st;
                    bad_count := bad;
                    st_saved := saved;
                    st_log := st_log st ++ [entry] |})
  else Ok (Continue {| st_model := tc_model c;
                       best_loss := best_loss st;
                       best_r := best;
                       train_losses := train_losses st ++ [curr_train_loss];
                       dev_losses := dev_losses st ++ [curr_dev_loss];
                       dev_rs := dev_rs st ++ [curr_dev_r];
                       bad_count := bad;
                       st_saved := saved;
                       st_log := st_log st ++ [entry] |}).

(** The body of [for epoch in range(self.epochs)].  The progress bar of
    line 133 is created with [total_obs // self.train_batch_size] steps,
    which raises when the batch size is 0. *)
Definition epoch_body (epoch : nat) (st : TrainState)
  : result (flow TrainState) :=
  pbar_total <- floor_div (length train_X) (train_batch_size self) ;;
  c <- train_epoch train_X train_Y pretrain_x pretrain_actual fuel
                   (st_model st) ;;
  let curr_train_loss := np_mean (tc_losses c) in
  if megaverid
  then convergence_branch epoch st c curr_train_loss
  else validation_branch epoch st c curr_train_loss.

Definition train_init : TrainState :=
  {| st_model := new_model;
     best_loss := inf;
     best_r := neg_inf;
     train_losses := [];
     dev_losses := [];
     dev_rs := [];
     bad_count := 0;
     st_saved := [];
     st_log := [] |}.

(** The whole run, with its log. *)
Definition train_run : result TrainState :=
  for_each epoch_body (seq 0 (epochs self)) train_init.

(** [train] returns [train_losses, dev_losses, dev_rs]. *)
Definition train : result (list float * list float * list float) :=
  st <- train_run ;;
  Ok (train_losses st, dev_losses st, dev_rs st).

End Train.

End Trainer.

Arguments lg_epoch {Model} _.
Arguments lg_fed {Model} _.
Arguments lg_train_loss {Model} _.
Arguments lg_dev_loss {Model} _.
Arguments lg_dev_r {Model} _.
Arguments lg_saved {Model} _.
Arguments lg_break {Model} _.

(** ** Vocabulary of the properties *)

(** The slices a batch loop is meant to feed: [[0, first)], then slices of
    width [step] laid end to end.  [nth_range first step k] is slice
    number [k]. *)
Definition nth_range (first step k : nat) : nat * nat :=
  match k with
  | 0 => (0, first)
  | S k' => (first + k' * step, first + k' * step + step)
  end.

Definition batch_ranges (first step q : nat) : list (nat * nat) :=
  map (nth_range first step) (seq 0 q).

(** What holds of a batch cursor [(i, j)] at the loop test: the slices fed
    so far are the first ones of [batch_ranges], and either the cursor is
    the next slice to feed, or the slice at the cursor was fed last and
    reaches the end of the data. *)
Definition cursor_inv (first step total i j : nat) (fed : list (nat * nat))
  : Prop :=
  exists k,
    (i, j) = nth_range first step k /\
    ((j < total /\ fed = batch_ranges first step k) \/
     (i < total <= j /\ fed = batch_ranges first step (S k))).

(** The examples a list of slices selects, in order. *)
Definition fed_examples {A : Type} (l : list A) (fed : list (nat * nat))
  : list A :=
  concat (map (fun r => slice l (fst r) (snd r)) fed).

(** The least loss seen in a list of epochs, [inf] when there is none; NaN
    is never the least. *)
Definition least_loss (losses : list float) : float :=
  fold_left (fun best x => if lt x best then x else best) losses inf.

(** The greatest correlation seen, [-inf] when there is none. *)
Definition greatest_r (rs : list float) : float :=
  fold_left (fun best x => if gt x best then x else best) rs neg_inf.

(** How many epochs in a row, ending with the newest, had a correlation
    strictly below that of the epoch before.  [strict_drops_rev] takes the
    newest epoch first. *)
Fixpoint strict_drops_rev (rs : list float) : nat :=
  match rs with
  | x :: ((y :: _) as older) =>
      if lt x y then S (strict_drops_rev older) else 0
  | _ => 0
  end.

Definition strict_drops (rs : list float) : nat :=
  strict_drops_rev (rev rs).

(** The correlations and losses a log holds, oldest first. *)
Definition log_rs {Model : Type} (log : list (EpochLog Model)) : list float :=
  flat_map (fun e => match lg_dev_r e with Some r => [r] | None => [] end) log.

Definition log_losses {Model : Type} (log : list (EpochLog Model))
  : list float :=
  map lg_train_loss log.

(** The entries of the epochs that did not break out of the loop. *)
Definition completed {Model : Type} (log : list (EpochLog Model))
  : list (EpochLog Model) :=
  filter (fun e => negb (lg_break e)) log.

(** The convergence test of line 197 on the loss of an epoch and of the one
    before. *)
Definition converged (curr prev : float) : bool :=
  lt (abs (sub curr prev)) tolerance.

Definition log_dev_losses {Model : Type} (log : list (EpochLog Model))
  : list float :=
  flat_map (fun e => match lg_dev_loss e with Some l => [l] | None => [] end)
           log.

(** What the log entry of an epoch holds in convergence mode, given the
    entries of the epochs [before] it: the checkpoint is written when the
    loss is strictly below the least loss before, and the loop breaks when
    the loss is within the tolerance of the loss of the epoch before. *)
Definition convergence_entry {Model : Type} (before : list (EpochLog Model))
           (e : EpochLog Model) : Prop :=
  lg_epoch e = length before /\
  lg_dev_loss e = None /\
  lg_dev_r e = None /\
  lg_saved e = lt (lg_train_loss e) (least_loss (log_losses before)) /\
  lg_break e = match last_item (log_losses before) with
               | Some prev => converged (lg_train_loss e) prev
               | None => false
               end.

(** The same in validation mode: the checkpoint is written when the
    correlation is strictly above the greatest before, and the loop breaks
    when the correlation has dropped three epochs in a row. *)
Definition validation_entry {Model : Type} (before : list (EpochLog Model))
           (e : EpochLog Model) : Prop :=
  lg_epoch e = length before /\
  exists dev_loss r,
    lg_dev_loss e = Some dev_loss /\
    lg_dev_r e = Some r /\
    lg_saved e = gt r (greatest_r (log_rs before)) /\
    lg_break e = (3 <=? strict_drops (log_rs before ++ [r])).

(** A log each of whose entries is as [entry] says, and in which no epoch
    but the last broke out of the loop. *)
Definition log_ok {Model : Type}
           (entry : list (EpochLog Model) -> EpochLog Model -> Prop)
           (log : list (EpochLog Model)) : Prop :=
  forall before e after,
    log = before ++ e :: after ->
    entry before e /\ (after <> [] -> lg_break e = false).

(** The lists [train] returns hold the metrics of the epochs that did not
    break, and the checkpoint file was written after the epochs marked as
    saved. *)
Definition histories_ok {Model : Type} (st : TrainState Model) : Prop :=
  train_losses st = log_losses (completed (st_log st)) /\
  dev_losses st = log_dev_losses (completed (st_log st)) /\
  dev_rs st = log_rs (completed (st_log st)) /\
  st_saved st = map (@lg_model Model) (filter lg_saved (st_log st)).

(** What holds of the state of [train] at the top of epoch [k]: the log has
    an entry for each of the [k] epochs before, none of which broke, and the
    best metric and the counter of bad epochs are those of the log. *)
Definition convergence_inv {Model : Type} (k : nat) (st : TrainState Model)
  : Prop :=
  length (st_log st) = k /\
  log_ok convergence_entry (st_log st) /\
  histories_ok st /\
  Forall (fun e => lg_break e = false) (st_log st) /\
  best_loss st = least_loss (log_losses (st_log st)).

Definition validation_inv {Model : Type} (k : nat) (st : TrainState Model)
  : Prop :=
  length (st_log st) = k /\
  log_ok validation_entry (st_log st) /\
  histories_ok st /\
  Forall (fun e => lg_break e = false) (st_log st) /\
  best_r st = greatest_r (log_rs (st_log st)) /\
  bad_count st = strict_drops (log_rs (st_log st)).

(** ** A small world to run the class in

    Examples are numbers, the model is the count of optimizer steps taken,
    and the prediction for example [x] is the number [m + x].  Losses and
    correlations are read from a table, one entry per epoch of two
    batches. *)

Module Toy.

Definition forward (m : nat) (xs : list nat) : list float :=
  map (fun x => of_nat (m + x)) xs.

Definition squeeze (t : list float) : list float := t.

Definition backward_step (m : nat) (xs : list nat) (ys : list float) : nat :=
  S m.

(** The number a prediction stands for. *)
Definition index_of (x : float) : nat :=
  match find (fun k => SFeqb x (of_nat k)) (seq 0 64) with
  | Some k => k
  | None => 0
  end.

Definition table_loss (table : list float) (preds ys : list float) : float :=
  nth (index_of (hd zero preds) / 2) table nan.

Definition table_r (table : list float) (preds ys : list float) : float :=
  nth (index_of (hd zero preds) / 2 - 1) table nan.

(** [Trainer(epochs=e, train_batch_size=b, predict_batch_size=p,
    data_name=name)]. *)
Definition trainer (e b p : nat) (name : string) : Trainer :=
  {| epochs := e;
     train_batch_size := b;
     predict_batch_size := p;
     pretraining := false;
     data_name := name |}.

(** The batch loop of one training epoch over [n] examples. *)
Definition train_epoch (b n fuel : nat) : result (TrainCursor nat) :=
  train_epoch forward squeeze (table_loss []) backward_step
              (trainer 1 b b "wsd") (repeat 0 n) (repeat zero n) tt tt fuel 0.

(** [predict] and [predict_grad] over the examples [xs]. *)
Definition predict_loop (b p : nat) (xs : list nat) (fuel : nat)
  : result PredictCursor :=
  predict_loop forward squeeze (table_loss []) (table_loss [])
               (trainer 1 b p "wsd") 0 xs (map (fun _ => zero) xs) None tt tt
               fuel.

Definition predict_grad_loop (b p : nat) (xs : list nat) (fuel : nat)
  : result PredictCursor :=
  predict_grad_loop forward squeeze (trainer 1 b p "wsd") 0 xs fuel.

Definition predict (b p : nat) (xs : list nat) (fuel : nat)
  : result (float * list float) :=
  predict forward squeeze (table_loss []) (table_loss [])
          (trainer 1 b p "wsd") 0 xs (map (fun _ => zero) xs) None tt tt fuel.

Definition predict_grad (b p : nat) (xs : list nat) (fuel : nat)
  : result (list float) :=
  predict_grad forward squeeze (trainer 1 b p "wsd") 0 xs fuel.

(** A run of [train] by the trainer [t] over [n] examples (the dev set has as
    many), with the train losses and dev correlations of the epochs taken
    from the tables. *)
Definition train_run_with (t : Trainer) (n : nat) (losses rs : list float)
  : result (TrainState nat) :=
  train_run 0 forward squeeze (table_loss losses) (table_loss losses)
            backward_step (table_r rs) t
            (repeat 0 n) (repeat zero n) (repeat 0 n, repeat zero n) tt tt n.

(** The same over two examples in batches of one. *)
Definition train_run (e : nat) (name : string) (losses rs : list float)
  : result (TrainState nat) :=
  train_run_with (trainer e 1 1 name) 2 losses rs.

Definition f0_5 : float := S754_finite false 4503599627370496 (-53).
Definition f0_4 : float := S754_finite false 7205759403792794 (-54).
Definition f0_3 : float := S754_finite false 5404319552844595 (-54).
Definition f0_2 : float := S754_finite false 7205759403792794 (-55).

(** Six epochs of metrics: a loss that stays put, a loss that settles, a
    correlation that drops three times and one that never moves. *)
Definition steady_losses : list float := repeat f0_5 6.
Definition settling_losses : list float :=
  [f0_5; f0_4; f0_4; f0_5; f0_5; f0_5].
Definition dropping_rs : list float := [f0_5; f0_4; f0_3; f0_2; f0_5; f0_5].

(** A correlation that drops twice, stays put, and drops twice again. *)
Definition f0_1 : float := S754_finite false 7205759403792794 (-56).

End Toy.

(** ** Vocabulary of the further properties *)

Section Replay.

Variables Example Tensor Model : Type.
Variable forward : Model -> list Example -> Tensor.
Variable squeeze : Tensor -> list float.
Variable smooth_loss : list float -> list float -> float.
Variable backward_step : Model -> list Example -> list float -> Model.
Variables (_X : list Example) (_Y : list float).

(** What an epoch is meant to do with one slice: the smooth loss of the
    model's output on the slice is recorded, then the model takes the
    optimizer step for the slice. *)
Definition replay_step (s : Model * list float) (r : nat * nat)
  : Model * list float :=
  let xs := slice _X (fst r) (snd r) in
  let ys := slice _Y (fst r) (snd r) in
  (backward_step (fst s) xs ys,
   snd s ++ [smooth_loss (squeeze (forward (fst s) xs)) ys]).

(** The model and the losses after the slices [fed], taken in order. *)
Definition replay_batches (fed : list (nat * nat)) (m : Model)
  : Model * list float :=
  fold_left replay_step fed (m, []).

End Replay.

(** The trainer with its pretraining flag set to [b]. *)
Definition with_pretraining (b : bool) (t : Trainer) : Trainer :=
  {| epochs := epochs t;
     train_batch_size := train_batch_size t;
     predict_batch_size := predict_batch_size t;
     pretraining := b;
     data_name := data_name t |}.

(** The model the epoch with index [k] starts from: the fresh model for
    epoch 0, the model the epoch before left otherwise. *)
Definition model_before {Model : Type} (new_model : Model)
           (log : list (EpochLog Model)) (k : nat) : Model :=
  match k with
  | 0 => new_model
  | S j => match nth_error log j with
           | Some e => lg_model e
           | None => new_model
           end
  end.

(** The entry of the last epoch that wrote the checkpoint file. *)
Definition last_saved {Model : Type} (log : list (EpochLog Model))
  : option (EpochLog Model) :=
  last_item (filter lg_saved log).

(** *** The constructor *)

(** The loss modules [__init__] may store as [self.regularization]. *)
Inductive Regularizer : Type :=
| L1Loss
| SmoothL1Loss.

(** What [__init__] leaves in [self]: the attributes the loops read, the
    regularizer and the path of the checkpoint file. *)
Record TrainerObject : Type := {
  attributes : Trainer;
  regularization : option Regularizer;
  best_model_file : string
}.

(** A constructor call returns the object or raises [TypeError]. *)
Inductive construction : Type :=
| Constructed (t : TrainerObject)
| TypeError.

(** [str(x)] for [x] a string or [None]. *)
Definition str (x : option string) : string :=
  match x with
  | Some s => s
  | None => "None"
  end.

(** [Trainer(optim_wt_decay=..., epochs=..., ...)].  The keyword arguments
    that may be [None] are options; the weight decay is given by the text
    [str(optim_wt_decay)] that goes into the file name.  Adding [None] to a
    string raises [TypeError]. *)
Definition __init__ (optim_wt_decay : string) (epochs train_batch_size : nat)
           (data_name pretrain_data_name : option string)
           (predict_batch_size : nat) (pretraining : bool)
           (regularization : option string) (file_path : string)
  : construction :=
  let reg :=
    match regularization with
    | Some "l1"%string => Some L1Loss
    | Some "smoothl1"%string => Some SmoothL1Loss
    | _ => None
    end in
  match data_name with
  | None => TypeError
  | Some name =>
      Constructed
        {| attributes := {| epochs := epochs;
                           train_batch_size := train_batch_size;
                           predict_batch_size := predict_batch_size;
                           pretraining := pretraining;
                           data_name := name |};
           regularization := reg;
           best_model_file :=
             (file_path ++ "wsd_model_" ++ name ++ "_" ++ optim_wt_decay
                ++ "_" ++ "pre_" ++ str pretrain_data_name
                ++ "_" ++ str regularization ++ "_.pth")%string |}
  end.

(** * Properties *)

(** ** Floats *)

Example decimal_tolerance : decimal 1 4 = tolerance.
Proof. vm_compute. reflexivity. Qed.

Lemma np_mean_nil : np_mean [] = nan.
Proof. reflexivity. Qed.

Lemma lt_nan_l (x : float) : lt nan x = false.
Proof. reflexivity. Qed.

Lemma lt_nan_r (x : float) : lt x nan = false.
Proof. destruct x; reflexivity. Qed.

Lemma lt_finite_inf (x : float) : is_finite x = true -> lt x inf = true.
Proof. destruct x; simpl; try discriminate; reflexivity. Qed.

Lemma gt_finite_neg_inf (x : float) :
  is_finite x = true -> gt x neg_inf = true.
Proof. destruct x; simpl; try discriminate; reflexivity. Qed.

Lemma lt_irrefl (x : float) : lt x x = false.
Proof.
  destruct x as [s|s| |s m e]; try (destruct s; reflexivity); try reflexivity.
  unfold lt, SFltb, SFcompare.
  rewrite Z.compare_refl, Pos.compare_cont_refl.
  destruct s; reflexivity.
Qed.

(** The comparison of two numbers is the comparison of their keys. *)
Lemma lt_key (x y : float) :
  is_nan x = false -> is_nan y = false ->
  (lt x y = true <-> key_lt (key x) (key y)).
Proof.
  unfold lt, SFltb, SFcompare, key_lt.
  destruct x as [sx|sx| |sx mx ex]; destruct y as [sy|sy| |sy my ey];
    simpl; try discriminate; intros _ _;
    try destruct sx; try destruct sy; simpl;
    try (split; [discriminate | lia]);
    try (split; [lia | reflexivity]);
    try (split; [reflexivity | lia]);
    change (Pos.compare_cont Eq mx my) with (Pos.compare mx my);
    (destruct (Z.compare_spec ex ey) as [He | He | He];
     [destruct (Pos.compare_spec mx my) as [Hm | Hm | Hm]| |]; simpl;
     split; try discriminate; try reflexivity; lia).
Qed.

Lemma lt_not_nan (x y : float) :
  lt x y = true -> is_nan x = false /\ is_nan y = false.
Proof.
  destruct x; destruct y; simpl; try discriminate; now split.
Qed.

Lemma lt_trans (x y z : float) :
  lt x y = true -> lt y z = true -> lt x z = true.
Proof.
  intros Hxy Hyz.
  destruct (lt_not_nan _ _ Hxy) as [Hx Hy].
  destruct (lt_not_nan _ _ Hyz) as [_ Hz].
  apply lt_key in Hxy; [|assumption ..].
  apply lt_key in Hyz; [|assumption ..].
  apply lt_key; [assumption ..|].
  unfold key_lt in *.
  destruct (key x) as [[x1 x2] x3], (key y) as [[y1 y2] y3],
    (key z) as [[z1 z2] z3].
  lia.
Qed.

(** A number below a bound is below every number that is not below the
    bound. *)
Lemma lt_bound_l (x y b : float) :
  lt x b = true -> lt y b = false -> is_nan y = false -> lt x y = true.
Proof.
  intros Hxb Hyb Hy.
  destruct (lt_not_nan _ _ Hxb) as [Hx Hb].
  apply lt_key in Hxb; [|assumption ..].
  apply lt_key; [assumption ..|].
  assert (Hn : ~ key_lt (key y) (key b)).
  { intros H. apply lt_key in H; [congruence | assumption ..]. }
  unfold key_lt in *.
  destruct (key x) as [[x1 x2] x3], (key y) as [[y1 y2] y3],
    (key b) as [[b1 b2] b3].
  lia.
Qed.

(** A number above a bound is above every number that is not above the
    bound. *)
Lemma lt_bound_r (x y b : float) :
  lt b x = true -> lt b y = false -> is_nan y = false -> lt y x = true.
Proof.
  intros Hbx Hby Hy.
  destruct (lt_not_nan _ _ Hbx) as [Hb Hx].
  apply lt_key in Hbx; [|assumption ..].
  apply lt_key; [assumption ..|].
  assert (Hn : ~ key_lt (key b) (key y)).
  { intros H. apply lt_key in H; [congruence | assumption ..]. }
  unfold key_lt in *.
  destruct (key x) as [[x1 x2] x3], (key y) as [[y1 y2] y3],
    (key b) as [[b1 b2] b3].
  lia.
Qed.

(** ** Lists and slices *)

Lemma slice_length {A : Type} (l : list A) (i j : nat) :
  length (slice l i j) = Nat.min j (length l) - i.
Proof. unfold slice. rewrite length_firstn, length_skipn. lia. Qed.

Lemma firstn_slice {A : Type} (l : list A) (i j : nat) :
  i <= j -> firstn i l ++ slice l i j = firstn j l.
Proof.
  intros Hij. unfold slice.
  rewrite firstn_skipn_comm.
  replace (i + (j - i)) with j by lia.
  replace (firstn i l) with (firstn i (firstn j l)).
  - apply firstn_skipn.
  - rewrite firstn_firstn. f_equal. lia.
Qed.

Lemma skipn_repeat {A : Type} (x : A) (n k : nat) :
  skipn k (repeat x n) = repeat x (n - k).
Proof.
  revert n. induction k as [|k IH]; intros n.
  - now rewrite Nat.sub_0_r.
  - destruct n as [|n]; simpl; [reflexivity | apply IH].
Qed.

Lemma last_item_snoc {A : Type} (l : list A) (x : A) :
  last_item (l ++ [x]) = Some x.
Proof.
  induction l as [|y l IH]; [reflexivity|].
  simpl. rewrite IH. destruct (l ++ [x]) eqn:E; [|reflexivity].
  destruct l; discriminate.
Qed.

Lemma nth_range_chain (first step k : nat) :
  fst (nth_range first step (S k)) = snd (nth_range first step k).
Proof. destruct k; simpl; lia. Qed.

Lemma nth_range_le (first step k : nat) :
  fst (nth_range first step k) <= snd (nth_range first step k).
Proof. destruct k; simpl; lia. Qed.

Lemma batch_ranges_S (first step q : nat) :
  batch_ranges first step (S q)
  = batch_ranges first step q ++ [nth_range first step q].
Proof. unfold batch_ranges. now rewrite seq_S, map_app. Qed.

Lemma fed_examples_app {A : Type} (l : list A) (f1 f2 : list (nat * nat)) :
  fed_examples l (f1 ++ f2) = fed_examples l f1 ++ fed_examples l f2.
Proof. unfold fed_examples. now rewrite map_app, concat_app. Qed.

(** The slices of [batch_ranges], taken in order, are a prefix of the list:
    nothing is skipped and nothing is taken twice. *)
Lemma fed_examples_ranges {A : Type} (l : list A) (first step q : nat) :
  fed_examples l (batch_ranges first step (S q))
  = firstn (snd (nth_range first step q)) l.
Proof.
  induction q as [|q IH].
  - unfold fed_examples, batch_ranges, slice. simpl.
    now rewrite app_nil_r, Nat.sub_0_r.
  - rewrite batch_ranges_S, fed_examples_app, IH.
    change (fed_examples l [nth_range first step (S q)])
      with (slice l (fst (nth_range first step (S q)))
                  (snd (nth_range first step (S q))) ++ []).
    rewrite app_nil_r, nth_range_chain. apply firstn_slice.
    rewrite <- nth_range_chain. apply nth_range_le.
Qed.

(** ** Loops *)

(** A loop whose body keeps [Inv] and lowers the measure [mu] finishes
    within [mu] iterations, in a state where [Inv] holds and the test
    fails. *)
Lemma while_rule {S : Type} (cond : S -> bool) (body : S -> result S)
      (Inv : S -> Prop) (mu : S -> nat) :
  (forall s, Inv s -> cond s = true ->
             exists s', body s = Ok s' /\ Inv s' /\ mu s' < mu s) ->
  forall fuel s, Inv s -> mu s <= fuel ->
    exists s', while cond body fuel s = Ok s' /\ Inv s' /\ cond s' = false.
Proof.
  intros Hbody fuel. induction fuel as [|fuel IH]; intros s HI Hmu.
  - simpl. destruct (cond s) eqn:Hc.
    + destruct (Hbody s HI Hc) as (s' & _ & _ & Hlt). lia.
    + now exists s.
  - simpl. destruct (cond s) eqn:Hc.
    + destruct (Hbody s HI Hc) as (s' & Hb & HI' & Hlt).
      rewrite Hb. simpl. apply IH; [assumption | lia].
    + now exists s.
Qed.


Lemma floor_div_inv (a b q : nat) : floor_div a b = Ok q -> 0 < b.
Proof.
  unfold floor_div. destruct (b =? 0) eqn:Hb; [discriminate|].
  intros _. apply Nat.eqb_neq in Hb. lia.
Qed.

(** A loop that is not entered returns its state, whatever the fuel. *)
Lemma while_skip {S : Type} (cond : S -> bool) (body : S -> result S)
      (fuel : nat) (s : S) :
  cond s = false -> while cond body fuel s = Ok s.
Proof. intros Hc. destruct fuel; simpl; now rewrite Hc. Qed.

Lemma nth_range_next (first step k i j : nat) :
  (i, j) = nth_range first step k ->
  (j, j + step) = nth_range first step (S k).
Proof.
  destruct k as [|k]; simpl; intros [= -> ->]; f_equal; lia.
Qed.

(** One round of a batch loop: the slice at the cursor is fed, the cursor
    moves on by [step], and the slice it moves to is fed as well when it
    reaches the end. *)
Lemma cursor_inv_step (first step total i j : nat) (fed : list (nat * nat)) :
  cursor_inv first step total i j fed -> j < total ->
  (total <= j + step ->
   cursor_inv first step total j (j + step)
              ((fed ++ [(i, j)]) ++ [(j, j + step)])) /\
  (j + step < total ->
   cursor_inv first step total j (j + step) (fed ++ [(i, j)])).
Proof.
  intros (k & Hk & Hfed) Hj.
  destruct Hfed as [[_ Hfed] | [[_ Hge] _]]; [|lia].
  pose proof (nth_range_next _ _ _ Hk) as Hnext.
  split; intros Hend; exists (S k); (split; [exact Hnext|]).
  - right. split; [lia|].
    now rewrite (batch_ranges_S first step (S k)),
      (batch_ranges_S first step k), <- Hfed, <- Hk, <- Hnext.
  - left. split; [lia|].
    now rewrite (batch_ranges_S first step k), <- Hfed, <- Hk.
Qed.

Lemma cursor_inv_init (first step total : nat) :
  first < total -> cursor_inv first step total 0 first [].
Proof.
  intros Hlt. exists 0. split; [reflexivity|]. left. now split.
Qed.

(** When the loop test fails the slices fed are [batch_ranges], the last of
    them the first to reach the end. *)
Lemma cursor_inv_exit (first step total i j : nat) (fed : list (nat * nat)) :
  cursor_inv first step total i j fed -> total <= j ->
  exists q,
    fed = batch_ranges first step (S q) /\
    (i, j) = nth_range first step q /\ i < total.
Proof.
  intros (k & Hk & Hfed) Hj.
  destruct Hfed as [[Hlt _] | [[Hi _] Hfed]]; [lia|].
  now exists k.
Qed.

Lemma batch_ranges_length (first step q : nat) :
  length (batch_ranges first step q) = q.
Proof. unfold batch_ranges. now rewrite length_map, length_seq. Qed.

(** ** The batch loop of a training epoch *)

Section TrainEpochFacts.

Context {Example Pretrain Tensor Model : Type}.
Variable forward : Model -> list Example -> Tensor.
Variable squeeze : Tensor -> list float.
Variable smooth_loss : list float -> list float -> float.
Variable backward_step : Model -> list Example -> list float -> Model.
Variable self : Trainer.
Variables (_X : list Example) (_Y : list float).
Variables (pretrain_x pretrain_actual : Pretrain).

Local Notation B := (train_batch_size self).
Local Notation total_obs := (length _X).
Local Notation run :=
  (train_epoch forward squeeze smooth_loss backward_step self _X _Y
               pretrain_x pretrain_actual).
Local Notation body :=
  (train_body forward squeeze smooth_loss backward_step self _X _Y
              pretrain_x pretrain_actual).

(** With no more examples than the batch size the loop is not entered: no
    slice is fed, no loss is recorded and the model is returned as it
    came. *)
Lemma train_epoch_not_entered (fuel : nat) (m : Model) :
  total_obs <= B ->
  run fuel m = Ok {| tc_i := 0; tc_j := B; tc_model := m;
                     tc_losses := []; tc_fed := [] |}.
Proof.
  intros Hle. unfold train_epoch. apply while_skip. simpl.
  now apply Nat.ltb_ge.
Qed.

Lemma train_body_inv (c : TrainCursor Model) :
  0 < B ->
  cursor_inv B B total_obs (tc_i c) (tc_j c) (tc_fed c) /\
  length (tc_losses c) = length (tc_fed c) ->
  (tc_j c <? total_obs) = true ->
  exists c',
    body c = Ok c' /\
    (cursor_inv B B total_obs (tc_i c') (tc_j c') (tc_fed c') /\
     length (tc_losses c') = length (tc_fed c')) /\
    total_obs - tc_j c' < total_obs - tc_j c.
Proof.
  intros HB [Hinv Hlen] Hc. apply Nat.ltb_lt in Hc.
  destruct (cursor_inv_step Hinv Hc) as [Hlast Hmore].
  unfold train_body, train_advance, train_batch. simpl.
  destruct (total_obs <=? tc_j c + B) eqn:Hend.
  - apply Nat.leb_le in Hend. eexists. split; [reflexivity|]. simpl.
    split; [|lia]. split; [now apply Hlast|].
    rewrite !length_app, Hlen. reflexivity.
  - apply Nat.leb_gt in Hend. eexists. split; [reflexivity|]. simpl.
    split; [|lia]. split; [now apply Hmore|].
    rewrite !length_app, Hlen. reflexivity.
Qed.

(** With more examples than the batch size (and a positive batch size) the
    loop finishes within [total_obs] iterations, having fed the slices
    [[0,B)], [[B,2B)], ... up to the first one that reaches the end. *)
Lemma train_epoch_entered (fuel : nat) (m : Model) :
  0 < B -> B < total_obs -> total_obs <= fuel ->
  exists c q,
    run fuel m = Ok c /\
    tc_fed c = batch_ranges B B (S q) /\
    length (tc_losses c) = S q /\
    fst (nth_range B B q) < total_obs <= snd (nth_range B B q).
Proof.
  intros HB Hlt Hfuel.
  destruct (@while_rule _ (fun c => tc_j c <? total_obs) body
              (fun c => cursor_inv B B total_obs (tc_i c) (tc_j c) (tc_fed c)
                        /\ length (tc_losses c) = length (tc_fed c))
              (fun c => total_obs - tc_j c)
              (fun c => train_body_inv c HB) fuel
              {| tc_i := 0; tc_j := B; tc_model := m;
                 tc_losses := []; tc_fed := [] |})
    as (c & Hrun & [Hinv Hlen] & Hexit).
  - simpl. split; [now apply cursor_inv_init | reflexivity].
  - simpl. lia.
  - apply Nat.ltb_ge in Hexit.
    destruct (cursor_inv_exit Hinv Hexit) as (q & Hfed & Hq & Hi).
    exists c, q. split; [exact Hrun|]. split; [exact Hfed|].
    split; [now rewrite Hlen, Hfed, batch_ranges_length|].
    rewrite <- Hq. simpl. lia.
Qed.


(** In a data set larger than the batch size every example is fed, once and
    in order. *)
Lemma train_epoch_covers (fuel : nat) (m : Model) :
  0 < B -> B < total_obs -> total_obs <= fuel ->
  exists c, run fuel m = Ok c /\ fed_examples _X (tc_fed c) = _X.
Proof.
  intros HB Hlt Hfuel.
  destruct (train_epoch_entered m HB Hlt Hfuel)
    as (c & q & Hrun & Hfed & _ & _ & Hend).
  exists c. split; [exact Hrun|].
  rewrite Hfed, fed_examples_ranges. now apply firstn_all2.
Qed.

End TrainEpochFacts.

(** ** Slice assignment *)


(** Filling in the predictions of the slice [[i, j)] behind those of the
    first [i] examples gives the predictions of the first [min j n]. *)
Lemma assign_slice_predictions {A : Type} (f : A -> float) (xs : list A)
      (i j : nat) :
  i <= j -> i <= length xs ->
  assign_slice (map f (firstn i xs) ++ repeat zero (length xs - i)) i j
               (map f (slice xs i j))
  = Ok (map f (firstn (Nat.min j (length xs)) xs)
          ++ repeat zero (length xs - Nat.min j (length xs))).
Proof.
  intros Hij Hi.
  set (n := length xs). set (yhat := map f (firstn i xs) ++ repeat zero (n - i)).
  assert (Hpre : length (map f (firstn i xs)) = i).
  { rewrite length_map, length_firstn. fold n. lia. }
  assert (Hy : length yhat = n).
  { unfold yhat. rewrite length_app, Hpre, repeat_length. lia. }
  assert (Hs : length (slice yhat i j) = Nat.min j n - i).
  { rewrite slice_length, Hy. reflexivity. }
  unfold assign_slice.
  rewrite Hs, length_map, slice_length. fold n. rewrite Nat.eqb_refl.
  f_equal.
  assert (Hf : firstn i yhat = map f (firstn i xs)).
  { unfold yhat. rewrite firstn_app, Hpre, Nat.sub_diag. simpl.
    rewrite app_nil_r. apply firstn_all2. rewrite Hpre. lia. }
  assert (Hk : skipn (i + (Nat.min j n - i)) yhat
               = repeat zero (n - Nat.min j n)).
  { unfold yhat. rewrite skipn_app, Hpre.
    rewrite skipn_all2 by (rewrite Hpre; lia).
    rewrite skipn_repeat. simpl. f_equal. lia. }
  rewrite Hf, Hk, app_assoc, <- map_app, firstn_slice by assumption.
  f_equal. f_equal.
  destruct (Nat.le_gt_cases j n) as [Hjn | Hjn].
  - now rewrite Nat.min_l.
  - rewrite Nat.min_r by lia. unfold n. rewrite firstn_all.
    apply firstn_all2. fold n. lia.
Qed.

(** ** [predict] *)

Section PredictFacts.

Context {Example Pretrain Tensor Model : Type}.
Variable forward : Model -> list Example -> Tensor.
Variable squeeze : Tensor -> list float.
Variables smooth_loss l1_loss : list float -> list float -> float.
Variable self : Trainer.
Variable _model : Model.
Variables (data_x : list Example) (data_y : list float).
Variable loss : option string.
Variables (pretrain_x pretrain_actual : Pretrain).

Local Notation T := (train_batch_size self).
Local Notation P := (predict_batch_size self).
Local Notation total_obs := (length data_x).
Local Notation batch :=
  (predict_batch forward squeeze smooth_loss l1_loss self _model data_x
                 data_y loss pretrain_x pretrain_actual).
Local Notation body :=
  (predict_body forward squeeze smooth_loss l1_loss self _model data_x
                data_y loss pretrain_x pretrain_actual).
Local Notation loop :=
  (predict_loop forward squeeze smooth_loss l1_loss self _model data_x
                data_y loss pretrain_x pretrain_actual).
Local Notation run :=
  (predict forward squeeze smooth_loss l1_loss self _model data_x
           data_y loss pretrain_x pretrain_actual).

Lemma predict_batch_ok (c : PredictCursor) (yhat : list float) :
  assign_slice (pc_yhat c) (pc_i c) (pc_j c)
               (squeeze (forward _model (slice data_x (pc_i c) (pc_j c))))
  = Ok yhat ->
  exists l,
    batch c = Ok {| pc_i := pc_i c;
                    pc_j := pc_j c;
                    pc_yhat := yhat;
                    pc_losses := pc_losses c ++ [l];
                    pc_fed := pc_fed c ++ [(pc_i c, pc_j c)] |}.
Proof.
  intros Ha. unfold predict_batch. rewrite Ha. simpl.
  eexists. reflexivity.
Qed.



Section OnePerExample.

(** The model returns one value per example of the batch. *)
Hypothesis forward_length :
  forall xs, length (squeeze (forward _model xs)) = length xs.




End OnePerExample.

Section Pointwise.

(** The model scores each example on its own: the value for an example does
    not depend on the batch it is in. *)
Variable score : Example -> float.
Hypothesis forward_pointwise :
  forall xs, squeeze (forward _model xs) = map score xs.

Lemma predict_body_aligned (c : PredictCursor) :
  0 < T ->
  cursor_inv P T total_obs (pc_i c) (pc_j c) (pc_fed c) /\
  pc_i c <= pc_j c /\
  ((pc_j c < total_obs /\
    pc_yhat c = map score (firstn (pc_i c) data_x)
                  ++ repeat zero (total_obs - pc_i c)) \/
   (total_obs <= pc_j c /\ pc_yhat c = map score data_x)) ->
  (pc_j c <? total_obs) = true ->
  exists c',
    body c = Ok c' /\
    (cursor_inv P T total_obs (pc_i c') (pc_j c') (pc_fed c') /\
     pc_i c' <= pc_j c' /\
     ((pc_j c' < total_obs /\
       pc_yhat c' = map score (firstn (pc_i c') data_x)
                      ++ repeat zero (total_obs - pc_i c')) \/
      (total_obs <= pc_j c' /\ pc_yhat c' = map score data_x))) /\
    total_obs - pc_j c' < total_obs - pc_j c.
Proof.
  intros HT (Hinv & Hij & Hy) Hc. apply Nat.ltb_lt in Hc.
  destruct Hy as [[_ Hy] | [Hge _]]; [|lia].
  destruct (cursor_inv_step Hinv Hc) as [Hlast Hmore].
  assert (Ha1 : assign_slice (pc_yhat c) (pc_i c) (pc_j c)
                  (squeeze (forward _model (slice data_x (pc_i c) (pc_j c))))
                = Ok (map score (firstn (pc_j c) data_x)
                        ++ repeat zero (total_obs - pc_j c))).
  { rewrite Hy, forward_pointwise, assign_slice_predictions by lia.
    now rewrite Nat.min_l by lia. }
  destruct (predict_batch_ok c Ha1) as (l1 & Hb1).
  unfold predict_body. rewrite Hb1. simpl.
  destruct (total_obs <=? pc_j c + T) eqn:Hend.
  - apply Nat.leb_le in Hend.
    match goal with |- context [batch ?c2] => set (c2' := c2) end.
    assert (Ha2 : assign_slice (pc_yhat c2') (pc_i c2') (pc_j c2')
                    (squeeze (forward _model
                                (slice data_x (pc_i c2') (pc_j c2'))))
                  = Ok (map score data_x)).
    { unfold c2', predict_advance. simpl.
      rewrite forward_pointwise, assign_slice_predictions by lia.
      rewrite Nat.min_r, Nat.sub_diag, firstn_all by lia.
      simpl. now rewrite app_nil_r. }
    destruct (predict_batch_ok c2' Ha2) as (l2 & Hb2).
    rewrite Hb2. eexists. split; [reflexivity|].
    unfold c2', predict_advance. simpl.
    split; [|lia]. split; [now apply Hlast|]. split; [lia|].
    right. now split.
  - apply Nat.leb_gt in Hend.
    eexists. split; [reflexivity|]. simpl.
    split; [|lia]. split; [now apply Hmore|]. split; [lia|].
    left. now split.
Qed.

(** On a data set larger than the inference batch size [predict] returns the
    score of every example, in the order of the examples; the first slice
    has the inference batch size and the later ones the training batch
    size. *)
Lemma predict_aligned (fuel : nat) :
  0 < T -> P < total_obs -> total_obs <= fuel ->
  exists c q,
    loop fuel = Ok c /\
    run fuel = Ok (np_mean (pc_losses c), map score data_x) /\
    pc_fed c = batch_ranges P T (S q).
Proof.
  intros HT Hlt Hfuel.
  destruct (@while_rule _ (fun c => pc_j c <? total_obs) body _
              (fun c => total_obs - pc_j c)
              (fun c => predict_body_aligned c HT) fuel
              {| pc_i := 0; pc_j := P; pc_yhat := repeat zero total_obs;
                 pc_losses := []; pc_fed := [] |})
    as (c & Hrun & (Hinv & _ & Hy) & Hexit).
  - simpl. split; [now apply cursor_inv_init|]. split; [lia|].
    left. split; [assumption|]. now rewrite Nat.sub_0_r.
  - simpl. lia.
  - apply Nat.ltb_ge in Hexit.
    destruct Hy as [[Hj _] | [_ Hy]]; [lia|].
    destruct (cursor_inv_exit Hinv Hexit) as (q & Hfed & _).
    exists c, q. split; [exact Hrun|]. split; [|exact Hfed].
    unfold predict, predict_loop. rewrite Hrun. simpl. now rewrite Hy.
Qed.

End Pointwise.

End PredictFacts.

(** ** The epoch loop *)

(** A [for] loop over [range(hi)]: if the body keeps [Inv] when it falls
    through and establishes [Brk] when it breaks, the loop returns either
    after all [hi] rounds with [Inv], or from a round [k < hi] with
    [Brk k]. *)
Lemma for_each_rule {St : Type} (body : nat -> St -> result (flow St))
      (Inv Brk : nat -> St -> Prop) (hi : nat) :
  (forall k s f, k < hi -> Inv k s -> body k s = Ok f ->
                 match f with
                 | Continue s' => Inv (S k) s'
                 | Break s' => Brk k s'
                 end) ->
  forall n a s s',
    a + n = hi -> Inv a s -> for_each body (seq a n) s = Ok s' ->
    Inv hi s' \/ exists k, k < hi /\ Brk k s'.
Proof.
  intros Hstep n. induction n as [|n IH]; intros a s s' Hhi HI Hrun.
  - simpl in Hrun. injection Hrun as <-. left.
    now replace hi with a by lia.
  - simpl in Hrun. destruct (body a s) as [f|] eqn:Hb; [|discriminate].
    assert (Ha : a < hi) by lia.
    specialize (Hstep a s f Ha HI Hb). simpl in Hrun.
    destruct f as [s1|s1].
    + apply IH with (S a) s1; [lia | assumption | assumption].
    + injection Hrun as <-. right. now exists a.
Qed.


Lemma filter_all {A : Type} (f : A -> bool) (l : list A) :
  Forall (fun x => f x = true) l -> filter f l = l.
Proof.
  induction 1 as [|x l Hx _ IH]; [reflexivity|].
  simpl. now rewrite Hx, IH.
Qed.

Lemma least_loss_snoc (losses : list float) (x : float) :
  least_loss (losses ++ [x])
  = if lt x (least_loss losses) then x else least_loss losses.
Proof. unfold least_loss. now rewrite fold_left_app. Qed.

Lemma greatest_r_snoc (rs : list float) (x : float) :
  greatest_r (rs ++ [x])
  = if gt x (greatest_r rs) then x else greatest_r rs.
Proof. unfold greatest_r. now rewrite fold_left_app. Qed.

(** A loss is below the least loss of a list exactly when it is below
    [inf] and below every loss of the list that is a number. *)
Lemma least_loss_spec (losses : list float) (x : float) :
  lt x (least_loss losses) = true <->
  lt x inf = true /\
  Forall (fun y => is_nan y = true \/ lt x y = true) losses.
Proof.
  induction losses as [|y losses IH] using rev_ind.
  - simpl. split; [now split | now intros [H _]].
  - rewrite least_loss_snoc, Forall_app.
    destruct (lt y (least_loss losses)) eqn:Hy.
    + split.
      * intros Hxy. pose proof (lt_trans _ _ _ Hxy Hy) as Hx.
        apply IH in Hx as [Hinf Hall].
        repeat split; try assumption. constructor; [now right | constructor].
      * intros (_ & _ & Hlast). inversion Hlast as [|? ? [Hnan | Hxy] _]; subst.
        -- destruct (lt_not_nan _ _ Hy) as [Hn _]. congruence.
        -- exact Hxy.
    + split.
      * intros Hx. pose proof Hx as Hx'. apply IH in Hx' as [Hinf Hall].
        repeat split; try assumption. constructor; [|constructor].
        destruct (is_nan y) eqn:Hn; [now left | right].
        now apply lt_bound_l with (least_loss losses).
      * intros (Hinf & Hall & _). apply IH. now split.
Qed.

(** A correlation is above the greatest of a list exactly when it is above
    [-inf] and above every correlation of the list that is a number. *)
Lemma greatest_r_spec (rs : list float) (x : float) :
  gt x (greatest_r rs) = true <->
  gt x neg_inf = true /\
  Forall (fun y => is_nan y = true \/ gt x y = true) rs.
Proof.
  unfold gt. change SFltb with lt.
  induction rs as [|y rs IH] using rev_ind.
  - simpl. split; [now split | now intros [H _]].
  - rewrite greatest_r_snoc, Forall_app. unfold gt. change SFltb with lt.
    destruct (lt (greatest_r rs) y) eqn:Hy.
    + split.
      * intros Hyx. pose proof (lt_trans _ _ _ Hy Hyx) as Hx.
        apply IH in Hx as [Hinf Hall].
        repeat split; try assumption. constructor; [now right | constructor].
      * intros (_ & _ & Hlast). inversion Hlast as [|? ? [Hnan | Hyx] _]; subst.
        -- destruct (lt_not_nan _ _ Hy) as [_ Hn]. congruence.
        -- exact Hyx.
    + split.
      * intros Hx. pose proof Hx as Hx'. apply IH in Hx' as [Hinf Hall].
        repeat split; try assumption. constructor; [|constructor].
        destruct (is_nan y) eqn:Hn; [now left | right].
        now apply lt_bound_r with (greatest_r rs).
      * intros (Hinf & Hall & _). apply IH. now split.
Qed.

(** The count of epochs in a row with a strict drop, one epoch on: one more
    when the new correlation is strictly below the last one, none
    otherwise. *)
Lemma strict_drops_snoc (rs : list float) (r : float) :
  strict_drops (rs ++ [r])
  = match last_item rs with
    | Some prev => if lt r prev then S (strict_drops rs) else 0
    | None => 0
    end.
Proof.
  unfold strict_drops. rewrite rev_app_distr. simpl.
  destruct rs as [|x rs] using rev_ind; [reflexivity|].
  rewrite last_item_snoc, rev_app_distr. reflexivity.
Qed.

Section LogFacts.

Context {Model : Type}.
Implicit Types (log before after : list (EpochLog Model)).
Implicit Types (e : EpochLog Model).

Lemma completed_app log1 log2 :
  completed (log1 ++ log2) = completed log1 ++ completed log2.
Proof. apply filter_app. Qed.

Lemma completed_all log :
  Forall (fun e => lg_break e = false) log -> completed log = log.
Proof.
  intros H. apply filter_all. eapply Forall_impl; [|exact H].
  simpl. now intros e ->.
Qed.

Lemma log_rs_app log1 log2 : log_rs (log1 ++ log2) = log_rs log1 ++ log_rs log2.
Proof. apply flat_map_app. Qed.

Lemma log_dev_losses_app log1 log2 :
  log_dev_losses (log1 ++ log2) = log_dev_losses log1 ++ log_dev_losses log2.
Proof. apply flat_map_app. Qed.

Lemma log_losses_app log1 log2 :
  log_losses (log1 ++ log2) = log_losses log1 ++ log_losses log2.
Proof. apply map_app. Qed.

Lemma log_ok_nil (entry : list (EpochLog Model) -> EpochLog Model -> Prop) :
  log_ok entry [].
Proof. intros [|x before] e after H; discriminate. Qed.

(** A log stays in order when the entry of one more epoch is added behind
    epochs that did not break. *)
Lemma log_ok_snoc (entry : list (EpochLog Model) -> EpochLog Model -> Prop)
      log e :
  log_ok entry log ->
  Forall (fun x => lg_break x = false) log ->
  entry log e ->
  log_ok entry (log ++ [e]).
Proof.
  intros Hok Hall He before x after Hsplit.
  destruct after as [|z after] using rev_ind.
  - apply app_inj_tail in Hsplit as [-> ->]. now split.
  - clear IHafter.
    change (before ++ x :: after ++ [z])
      with (before ++ (x :: after) ++ [z]) in Hsplit.
    rewrite app_assoc in Hsplit.
    apply app_inj_tail in Hsplit as [-> ->].
    split; [now apply (Hok before x after)|].
    intros _. rewrite Forall_forall in Hall. apply Hall.
    apply in_or_app. right. now left.
Qed.

End LogFacts.

(** *** Convergence mode *)

Section ConvergenceFacts.

Context {Model : Type}.

Lemma convergence_test (epoch : nat) (st : TrainState Model)
      (curr_train_loss : float) :
  convergence_inv epoch st ->
  (if epoch =? 0 then Ok false
   else match last_item (train_losses st) with
        | Some prev => Ok (lt (abs (sub curr_train_loss prev)) tolerance)
        | None => Err IndexError
        end)
  = Ok match last_item (log_losses (st_log st)) with
       | Some prev => converged curr_train_loss prev
       | None => false
       end.
Proof.
  intros (Hlen & _ & (Htl & _) & Hall & _).
  rewrite Htl, completed_all by assumption.
  destruct (st_log st) as [|x log] using rev_ind.
  - simpl in Hlen. subst epoch. reflexivity.
  - rewrite length_app in Hlen. simpl in Hlen.
    replace (epoch =? 0) with false by (symmetry; apply Nat.eqb_neq; lia).
    unfold log_losses. rewrite map_app. cbn [map].
    now rewrite last_item_snoc.
Qed.

(** One epoch of convergence mode never fails; it leaves the state in order
    for the next epoch, or breaks with the log and the returned lists in
    order. *)
Lemma convergence_branch_step (epoch : nat) (st : TrainState Model)
      (c : TrainCursor Model) (curr_train_loss : float) :
  convergence_inv epoch st ->
  exists f,
    convergence_branch epoch st c curr_train_loss = Ok f /\
    match f with
    | Continue st' => convergence_inv (S epoch) st'
    | Break st' =>
        log_ok convergence_entry (st_log st') /\ histories_ok st' /\
        length (st_log st') = S epoch
    end.
Proof.
  intros Hinv. unfold convergence_branch.
  rewrite (convergence_test curr_train_loss Hinv).
  destruct Hinv as (Hlen & Hok & (Htl & Hdl & Hrs & Hsv) & Hall & Hbest).
  cbn [bind].
  set (stop := match last_item (log_losses (st_log st)) with
               | Some prev => converged curr_train_loss prev
               | None => false
               end).
  set (e := {| lg_epoch := epoch; lg_fed := tc_fed c; lg_model := tc_model c;
               lg_train_loss := curr_train_loss; lg_dev_loss := None;
               lg_dev_r := None;
               lg_saved := lt curr_train_loss (best_loss st);
               lg_break := stop |}).
  assert (He : convergence_entry (st_log st) e).
  { unfold convergence_entry. simpl. rewrite Hbest. now repeat split. }
  assert (Hok' : log_ok convergence_entry (st_log st ++ [e]))
    by now apply log_ok_snoc.
  assert (Hsv' : (if lt curr_train_loss (best_loss st)
                  then st_saved st ++ [tc_model c] else st_saved st)
                 = map (@lg_model Model) (filter lg_saved (st_log st ++ [e]))).
  { rewrite filter_app, map_app, <- Hsv. simpl.
    destruct (lt curr_train_loss (best_loss st)); simpl;
      [reflexivity | now rewrite app_nil_r]. }
  destruct stop eqn:Hstop.
  - eexists. split; [reflexivity|]. split; [exact Hok'|].
    unfold histories_ok. cbn [train_losses dev_losses dev_rs st_saved st_log].
    rewrite completed_app.
    replace (completed [e]) with (@nil (EpochLog Model))
      by reflexivity.
    rewrite app_nil_r, length_app. simpl.
    split; [now repeat split | lia].
  - eexists. split; [reflexivity|].
    unfold convergence_inv, histories_ok.
    cbn [train_losses dev_losses dev_rs st_saved st_log best_loss].
    assert (Hall' : Forall (fun x => lg_break x = false) (st_log st ++ [e])).
    { apply Forall_app. split; [assumption|]. now constructor. }
    rewrite (completed_all Hall').
    rewrite (completed_all Hall) in Htl, Hdl, Hrs.
    rewrite log_losses_app, log_dev_losses_app, log_rs_app.
    change (log_losses [e]) with [curr_train_loss].
    change (log_rs [e]) with (@nil float).
    change (log_dev_losses [e]) with (@nil float).
    rewrite least_loss_snoc, length_app, <- Hbest, <- Htl, <- Hdl, <- Hrs.
    rewrite !app_nil_r. simpl.
    split; [lia|]. split; [exact Hok'|].
    split; [now repeat split|]. now split.
Qed.

End ConvergenceFacts.

(** *** Validation mode *)

Section ValidationFacts.

Context {Example Pretrain Tensor Model : Type}.
Variable forward : Model -> list Example -> Tensor.
Variable squeeze : Tensor -> list float.
Variables smooth_loss l1_loss : list float -> list float -> float.
Variable pearsonr : list float -> list float -> float.
Variable self : Trainer.
Variable dev : list Example * list float.
Variables (pretrain_x pretrain_actual : Pretrain).
Variable fuel : nat.

Lemma validation_test (epoch : nat) (st : TrainState Model) (r : float) :
  validation_inv epoch st ->
  (if epoch =? 0 then Ok (bad_count st)
   else match last_item (dev_rs st) with
        | Some prev => Ok (if lt r prev then bad_count st + 1 else 0)
        | None => Err IndexError
        end)
  = Ok (strict_drops (log_rs (st_log st) ++ [r])).
Proof.
  intros (Hlen & Hok & (_ & _ & Hrs & _) & Hall & _ & Hbad).
  rewrite strict_drops_snoc, Hrs, completed_all, Hbad by assumption.
  destruct (st_log st) as [|x log] using rev_ind.
  - simpl in Hlen. subst epoch. reflexivity.
  - rewrite length_app in Hlen. simpl in Hlen.
    replace (epoch =? 0) with false by (symmetry; apply Nat.eqb_neq; lia).
    destruct (Hok log x [] eq_refl) as [(_ & dl & rx & _ & Hrx & _) _].
    rewrite log_rs_app.
    replace (log_rs [x]) with [rx] by (unfold log_rs; simpl; now rewrite Hrx).
    rewrite last_item_snoc, Nat.add_1_r. reflexivity.
Qed.

(** One epoch of validation mode, once [predict] has returned: it leaves the
    state in order for the next epoch, or breaks with the log and the
    returned lists in order. *)
Lemma validation_branch_step (epoch : nat) (st : TrainState Model)
      (c : TrainCursor Model) (curr_train_loss : float)
      (p : float * list float) :
  validation_inv epoch st ->
  predict forward squeeze smooth_loss l1_loss self (tc_model c)
          (fst dev) (snd dev) None pretrain_x pretrain_actual fuel = Ok p ->
  exists f,
    validation_branch forward squeeze smooth_loss l1_loss pearsonr self dev
                      pretrain_x pretrain_actual fuel epoch st c
                      curr_train_loss = Ok f /\
    match f with
    | Continue st' => validation_inv (S epoch) st'
    | Break st' =>
        log_ok validation_entry (st_log st') /\ histories_ok st' /\
        length (st_log st') = S epoch
    end.
Proof.
  intros Hinv Hp. unfold validation_branch.
  destruct dev as [dev_x dev_y]. simpl in Hp. rewrite Hp. cbn [bind].
  destruct p as [curr_dev_loss curr_dev_preds].
  set (r := pearsonr curr_dev_preds dev_y).
  rewrite (validation_test r Hinv).
  destruct Hinv as (Hlen & Hok & (Htl & Hdl & Hrs & Hsv) & Hall & Hbest & Hbad).
  cbn [bind].
  set (bad := strict_drops (log_rs (st_log st) ++ [r])).
  set (e := {| lg_epoch := epoch; lg_fed := tc_fed c; lg_model := tc_model c;
               lg_train_loss := curr_train_loss;
               lg_dev_loss := Some curr_dev_loss;
               lg_dev_r := Some r;
               lg_saved := gt r (best_r st);
               lg_break := 3 <=? bad |}).
  assert (He : validation_entry (st_log st) e).
  { unfold validation_entry. simpl. rewrite Hbest.
    split; [now symmetry|]. exists curr_dev_loss, r. now repeat split. }
  assert (Hok' : log_ok validation_entry (st_log st ++ [e]))
    by now apply log_ok_snoc.
  assert (Hsv' : (if gt r (best_r st)
                  then st_saved st ++ [tc_model c] else st_saved st)
                 = map (@lg_model Model) (filter lg_saved (st_log st ++ [e]))).
  { rewrite filter_app, map_app, <- Hsv. simpl.
    destruct (gt r (best_r st)); simpl;
      [reflexivity | now rewrite app_nil_r]. }
  destruct (3 <=? bad) eqn:Hstop.
  - eexists. split; [reflexivity|]. split; [exact Hok'|].
    unfold histories_ok. cbn [train_losses dev_losses dev_rs st_saved st_log].
    rewrite completed_app.
    replace (completed [e]) with (@nil (EpochLog Model))
      by reflexivity.
    rewrite app_nil_r, length_app. simpl.
    split; [now repeat split | lia].
  - eexists. split; [reflexivity|].
    unfold validation_inv, histories_ok.
    cbn [train_losses dev_losses dev_rs st_saved st_log best_r bad_count].
    assert (Hall' : Forall (fun x => lg_break x = false) (st_log st ++ [e])).
    { apply Forall_app. split; [assumption|]. now constructor. }
    rewrite (completed_all Hall').
    rewrite (completed_all Hall) in Htl, Hdl, Hrs.
    rewrite log_losses_app, log_dev_losses_app, log_rs_app.
    change (log_losses [e]) with [curr_train_loss].
    change (log_rs [e]) with [r].
    change (log_dev_losses [e]) with [curr_dev_loss].
    rewrite greatest_r_snoc, length_app, <- Hbest, <- Htl, <- Hdl, <- Hrs.
    simpl.
    split; [lia|]. split; [exact Hok'|].
    split; [now repeat split|]. split; [exact Hall'|].
    split; [reflexivity|]. unfold bad. now rewrite Hrs.
Qed.

End ValidationFacts.

(** *** The whole run *)

Section TrainFacts.

Context {Example Pretrain Tensor Model : Type}.
Variable new_model : Model.
Variable forward : Model -> list Example -> Tensor.
Variable squeeze : Tensor -> list float.
Variables smooth_loss l1_loss : list float -> list float -> float.
Variable backward_step : Model -> list Example -> list float -> Model.
Variable pearsonr : list float -> list float -> float.
Variable self : Trainer.
Variables (train_X : list Example) (train_Y : list float).
Variable dev : list Example * list float.
Variables (pretrain_x pretrain_actual : Pretrain).
Variable fuel : nat.

Local Notation body :=
  (epoch_body forward squeeze smooth_loss l1_loss backward_step pearsonr self
              train_X train_Y dev pretrain_x pretrain_actual fuel).
Local Notation run :=
  (train_run new_model forward squeeze smooth_loss l1_loss backward_step
             pearsonr self train_X train_Y dev pretrain_x pretrain_actual
             fuel).
Local Notation epoch_loop :=
  (train_epoch forward squeeze smooth_loss backward_step self train_X train_Y
               pretrain_x pretrain_actual fuel).
Local Notation dev_predict m :=
  (predict forward squeeze smooth_loss l1_loss self m (fst dev) (snd dev)
           None pretrain_x pretrain_actual fuel).

Lemma convergence_inv_init : convergence_inv 0 (train_init new_model).
Proof.
  unfold convergence_inv, histories_ok. simpl.
  split; [reflexivity|]. split; [apply log_ok_nil|].
  split; [now repeat split|]. now split.
Qed.

Lemma validation_inv_init : validation_inv 0 (train_init new_model).
Proof.
  unfold validation_inv, histories_ok. simpl.
  split; [reflexivity|]. split; [apply log_ok_nil|].
  split; [now repeat split|]. now repeat split.
Qed.

Lemma epoch_body_convergence (epoch : nat) (st : TrainState Model)
      (f : flow (TrainState Model)) :
  megaverid self = true ->
  convergence_inv epoch st ->
  body epoch st = Ok f ->
  match f with
  | Continue st' => convergence_inv (S epoch) st'
  | Break st' =>
      log_ok convergence_entry (st_log st') /\ histories_ok st' /\
      length (st_log st') = S epoch
  end.
Proof.
  intros Hmode Hinv Hb. unfold epoch_body in Hb.
  destruct (floor_div _ _) as [pbar_total|]; [|discriminate].
  cbn [bind] in Hb. rewrite Hmode in Hb.
  destruct (epoch_loop (st_model st)) as [c|] eqn:Hc; [|discriminate].
  cbn [bind] in Hb.
  destruct (convergence_branch_step c (np_mean (tc_losses c)) Hinv)
    as (f' & Hf' & Hstep).
  rewrite Hf' in Hb. injection Hb as <-. exact Hstep.
Qed.

Lemma epoch_body_validation (epoch : nat) (st : TrainState Model)
      (f : flow (TrainState Model)) :
  megaverid self = false ->
  validation_inv epoch st ->
  body epoch st = Ok f ->
  match f with
  | Continue st' => validation_inv (S epoch) st'
  | Break st' =>
      log_ok validation_entry (st_log st') /\ histories_ok st' /\
      length (st_log st') = S epoch
  end.
Proof.
  intros Hmode Hinv Hb. unfold epoch_body in Hb.
  destruct (floor_div _ _) as [pbar_total|]; [|discriminate].
  cbn [bind] in Hb. rewrite Hmode in Hb.
  destruct (epoch_loop (st_model st)) as [c|] eqn:Hc; [|discriminate].
  cbn [bind] in Hb.
  destruct (dev_predict (tc_model c)) as [p|err] eqn:Hp.
  - destruct (validation_branch_step forward squeeze smooth_loss l1_loss
                pearsonr self dev pretrain_x pretrain_actual fuel c
                (np_mean (tc_losses c)) Hinv Hp)
      as (f' & Hf' & Hstep).
    rewrite Hf' in Hb. injection Hb as <-. exact Hstep.
  - unfold validation_branch in Hb. destruct dev as [dev_x dev_y].
    simpl in Hp. rewrite Hp in Hb. discriminate.
Qed.

(** In convergence mode every run of [train] that returns leaves a log and
    lists in order; the log has an entry for each epoch run, at most
    [epochs] and at least one when one is asked for. *)
Lemma train_run_convergence (st : TrainState Model) :
  megaverid self = true ->
  run = Ok st ->
  log_ok convergence_entry (st_log st) /\ histories_ok st /\
  length (st_log st) <= epochs self /\
  (0 < epochs self -> 0 < length (st_log st)).
Proof.
  intros Hmode Hrun.
  destruct (@for_each_rule _ body convergence_inv
              (fun k st => log_ok convergence_entry (st_log st) /\
                           histories_ok st /\ length (st_log st) = S k)
              (epochs self)
              (fun k s f _ => @epoch_body_convergence k s f Hmode)
              (epochs self) 0 (train_init new_model) st eq_refl
              convergence_inv_init Hrun)
    as [(Hlen & Hok & Hh & _) | (k & Hk & Hok & Hh & Hlen)];
    repeat (split; [assumption|]); lia.
Qed.

(** The same in validation mode. *)
Lemma train_run_validation (st : TrainState Model) :
  megaverid self = false ->
  run = Ok st ->
  log_ok validation_entry (st_log st) /\ histories_ok st /\
  length (st_log st) <= epochs self /\
  (0 < epochs self -> 0 < length (st_log st)).
Proof.
  intros Hmode Hrun.
  destruct (@for_each_rule _ body validation_inv
              (fun k st => log_ok validation_entry (st_log st) /\
                           histories_ok st /\ length (st_log st) = S k)
              (epochs self)
              (fun k s f _ => @epoch_body_validation k s f Hmode)
              (epochs self) 0 (train_init new_model) st eq_refl
              validation_inv_init Hrun)
    as [(Hlen & Hok & Hh & _) | (k & Hk & Hok & Hh & Hlen)];
    repeat (split; [assumption|]); lia.
Qed.


End TrainFacts.

(** * The claims *)

(** ** Batching *)

Section BatchClaims.

Context {Example Pretrain Tensor Model : Type}.
Variable forward : Model -> list Example -> Tensor.
Variable squeeze : Tensor -> list float.
Variable smooth_loss : list float -> list float -> float.
Variable backward_step : Model -> list Example -> list float -> Model.
Variable self : Trainer.
Variables (_X : list Example) (_Y : list float).
Variables (pretrain_x pretrain_actual : Pretrain).

Local Notation B := (train_batch_size self).
Local Notation total_obs := (length _X).
Local Notation run :=
  (train_epoch forward squeeze smooth_loss backward_step self _X _Y
               pretrain_x pretrain_actual).

(** C1.  The claim asks that a data set of [0 < total <= B] examples be fed
    to the model as one batch.  The source does not do that: the block that
    feeds the last slice sits inside [while bidx_j < total_obs], which is
    not entered when [total <= B].  The pass over the data returns with no
    slice fed, no loss recorded and the model unchanged, so the examples fed
    are not the data set. *)
Theorem train_epoch_small_dataset_feeds_nothing (fuel : nat) (m : Model) :
  0 < total_obs -> total_obs <= B ->
  exists c,
    run fuel m = Ok c /\
    tc_fed c = [] /\
    tc_losses c = [] /\
    tc_model c = m /\
    fed_examples _X (tc_fed c) <> _X.
Proof.
  intros Hpos Hle. eexists. split; [now apply train_epoch_not_entered|].
  simpl. repeat split. intros Heq.
  destruct _X; [simpl in Hpos; lia | discriminate].
Qed.

(** C2.  What the batch loop of an epoch feeds, for every positive batch
    size and every non-empty data set: when [B < total] the slices
    [[0,B)], [[B,2B)], ..., the last one the first to reach the end, which
    select every example once and in order; when [total <= B] nothing at
    all.  The claim holds in the first case and fails in the second. *)
Theorem train_epoch_coverage (fuel : nat) (m : Model) :
  0 < B -> 0 < total_obs -> total_obs <= fuel ->
  exists c,
    run fuel m = Ok c /\
    (B < total_obs ->
     fed_examples _X (tc_fed c) = _X /\
     exists q, tc_fed c = batch_ranges B B (S q) /\
               fst (nth_range B B q) < total_obs <= snd (nth_range B B q)) /\
    (total_obs <= B -> fed_examples _X (tc_fed c) = [] /\ tc_fed c = []).
Proof.
  intros HB Hpos Hfuel.
  destruct (Nat.le_gt_cases total_obs B) as [Hle | Hgt].
  - eexists. split; [now apply train_epoch_not_entered|].
    split; [lia|]. intros _. now split.
  - destruct (@train_epoch_entered _ _ _ _ forward squeeze smooth_loss
                backward_step self _X _Y pretrain_x pretrain_actual fuel m
                HB Hgt Hfuel)
      as (c & q & Hrun & Hfed & _ & Hend).
    exists c. split; [exact Hrun|]. split; [|lia].
    intros _. split; [|now exists q].
    rewrite Hfed, fed_examples_ranges. apply firstn_all2. lia.
Qed.

End BatchClaims.

Lemma train_epoch_small_dataset_feeds_nothing_witness :
  exists c,
    train_epoch Toy.forward Toy.squeeze (Toy.table_loss []) Toy.backward_step
                (Toy.trainer 3 64 128 "wsd") [5] [zero] tt tt 0 0 = Ok c /\
    tc_fed c = [] /\
    tc_losses c = [] /\
    tc_model c = 0 /\
    fed_examples [5] (tc_fed c) <> [5].
Proof.
  apply train_epoch_small_dataset_feeds_nothing; simpl; lia.
Defined.

Lemma train_epoch_coverage_witness :
  exists c,
    train_epoch Toy.forward Toy.squeeze (Toy.table_loss []) Toy.backward_step
                (Toy.trainer 3 5 128 "wsd") [1; 2; 3] [zero; zero; zero]
                tt tt 3 0 = Ok c /\
    (5 < 3 ->
     fed_examples [1; 2; 3] (tc_fed c) = [1; 2; 3] /\
     exists q, tc_fed c = batch_ranges 5 5 (S q) /\
               fst (nth_range 5 5 q) < 3 <= snd (nth_range 5 5 q)) /\
    (3 <= 5 -> fed_examples [1; 2; 3] (tc_fed c) = [] /\ tc_fed c = []).
Proof.
  apply (train_epoch_coverage Toy.forward Toy.squeeze (Toy.table_loss [])
           Toy.backward_step (Toy.trainer 3 5 128 "wsd") [1; 2; 3]
           [zero; zero; zero] tt tt (fuel := 3) 0); simpl; lia.
Defined.

(** C3.  The claim asks that [predict] and [predict_grad] move the cursor by
    the inference batch size.  The source moves it by
    [self.train_batch_size] (lines 263 and 309): with an inference batch
    size of 2 and a training batch size of 3, six examples are fed as
    [[0,2)], [[2,5)], [[5,8)], so the slices after the first hold three
    examples, not two. *)
Theorem predict_advances_by_train_batch_size :
  (exists c, Toy.predict_loop 3 2 [1; 2; 3; 4; 5; 6] 6 = Ok c /\
             pc_fed c = [(0, 2); (2, 5); (5, 8)]) /\
  (exists c, Toy.predict_grad_loop 3 2 [1; 2; 3; 4; 5; 6] 6 = Ok c /\
             pc_fed c = [(0, 2); (2, 5); (5, 8)]) /\
  batch_ranges 2 2 3 = [(0, 2); (2, 4); (4, 6)].
Proof.
  split; [|split]; [eexists; split; vm_compute; reflexivity .. | reflexivity].
Qed.

(** C9.  The vector [predict] returns always has one entry per example, but
    with no more examples than the inference batch size the loop is not
    entered and the entries are the zeros [yhat] was created with: for the
    single example 7, which the model scores 7, [predict] returns 0 (and NaN
    for the mean loss). *)
Theorem predict_small_dataset_returns_zeros :
  Toy.predict 64 128 [7] 1 = Ok (nan, [zero]) /\
  Toy.predict_grad 64 128 [7] 1 = Ok [zero] /\
  Toy.squeeze (Toy.forward 0 [7]) = [of_nat 7] /\
  of_nat 7 <> zero.
Proof.
  repeat split; try (vm_compute; reflexivity). discriminate.
Qed.

(** ** The loss *)

(** C8.  The scalar [_custom_loss] returns is the same whatever the
    pretraining arguments are, [None] included. *)
Theorem custom_loss_ignores_pretraining
        {Pretrain Tensor : Type} (squeeze : Tensor -> list float)
        (smooth_loss : list float -> list float -> float)
        (predicted : Tensor) (actual : list float)
        (pretrain_x pretrain_actual pretrain_x' pretrain_actual'
         : option Pretrain) :
  _custom_loss squeeze smooth_loss predicted actual pretrain_x pretrain_actual
  = _custom_loss squeeze smooth_loss predicted actual
                 pretrain_x' pretrain_actual'.
Proof. reflexivity. Qed.

(** ** Epochs *)

Lemma firstn_nth_error_split {A : Type} (l : list A) (k : nat) (x : A) :
  nth_error l k = Some x ->
  exists after, l = firstn k l ++ x :: after /\ length (firstn k l) = k.
Proof.
  intros Hk. destruct (nth_error_split l k Hk) as (l1 & l2 & Hl & Hlen).
  exists l2. rewrite Hl at 1 2 3.
  rewrite firstn_app, Hlen, Nat.sub_diag. simpl.
  rewrite app_nil_r, <- Hlen, firstn_all. now split.
Qed.


Section LogIndexFacts.

Context {Model : Type}.
Variable entry : list (EpochLog Model) -> EpochLog Model -> Prop.

(** The entry of epoch [k] is as [entry] says of the entries of the epochs
    before it, and if it broke out of the loop it is the last. *)
Lemma log_ok_nth (log : list (EpochLog Model)) (k : nat) (e : EpochLog Model) :
  log_ok entry log -> nth_error log k = Some e ->
  entry (firstn k log) e /\ (lg_break e = true -> length log = S k).
Proof.
  intros Hok Hk.
  destruct (firstn_nth_error_split log k Hk) as (after & Hl & Hlen).
  destruct (Hok _ _ _ Hl) as [He Hlast]. split; [exact He|].
  intros Hbreak. destruct after as [|x after].
  - rewrite Hl, length_app, Hlen. simpl. lia.
  - rewrite Hlast in Hbreak; [discriminate|]. intros [=].
Qed.


End LogIndexFacts.



Lemma log_rs_snoc {Model : Type} (log : list (EpochLog Model))
      (e : EpochLog Model) (r : float) :
  lg_dev_r e = Some r -> log_rs (log ++ [e]) = log_rs log ++ [r].
Proof.
  intros Hr. rewrite log_rs_app. unfold log_rs at 2. simpl.
  now rewrite Hr.
Qed.

Section EpochClaims.

Context {Example Pretrain Tensor Model : Type}.
Variable new_model : Model.
Variable forward : Model -> list Example -> Tensor.
Variable squeeze : Tensor -> list float.
Variables smooth_loss l1_loss : list float -> list float -> float.
Variable backward_step : Model -> list Example -> list float -> Model.
Variable pearsonr : list float -> list float -> float.
Variable self : Trainer.
Variables (train_X : list Example) (train_Y : list float).
Variable dev : list Example * list float.
Variables (pretrain_x pretrain_actual : Pretrain).
Variable fuel : nat.

Local Notation run :=
  (train_run new_model forward squeeze smooth_loss l1_loss backward_step
             pearsonr self train_X train_Y dev pretrain_x pretrain_actual
             fuel).
Local Notation convergence_ok :=
  (train_run_convergence new_model forward squeeze smooth_loss l1_loss
     backward_step pearsonr self train_X train_Y dev pretrain_x
     pretrain_actual fuel).
Local Notation validation_ok :=
  (train_run_validation new_model forward squeeze smooth_loss l1_loss
     backward_step pearsonr self train_X train_Y dev pretrain_x
     pretrain_actual fuel).

(** The checkpoint rule of an epoch, read off the log. *)
Lemma epoch_saved_iff (st : TrainState Model) (k : nat) (e : EpochLog Model) :
  run = Ok st ->
  nth_error (st_log st) k = Some e ->
  (if megaverid self
   then lg_saved e
        = lt (lg_train_loss e)
             (least_loss (log_losses (firstn k (st_log st))))
   else exists r,
       lg_dev_r e = Some r /\
       lg_saved e = gt r (greatest_r (log_rs (firstn k (st_log st))))) /\
  st_saved st = map (@lg_model Model) (filter lg_saved (st_log st)).
Proof.
  intros Hrun Hk. destruct (megaverid self) eqn:Hmode.
  - destruct (convergence_ok Hmode Hrun) as (Hok & (_ & _ & _ & Hsv) & _).
    destruct (log_ok_nth _ Hok Hk) as [(_ & _ & _ & Hs & _) _].
    now split.
  - destruct (validation_ok Hmode Hrun) as (Hok & (_ & _ & _ & Hsv) & _).
    destruct (log_ok_nth _ Hok Hk) as [(_ & dl & r & _ & Hr & Hs & _) _].
    split; [|exact Hsv]. now exists r.
Qed.




End EpochClaims.

(** ** Runs of the epoch loop *)

Example toy_literals :
  Toy.f0_5 = decimal 5 1 /\ Toy.f0_4 = decimal 4 1 /\
  Toy.f0_3 = decimal 3 1 /\ Toy.f0_2 = decimal 2 1.
Proof. repeat split; vm_compute; reflexivity. Qed.






(** * Further properties *)

(** ** Loops, once more *)

(** What a loop returns satisfies every invariant of its body, and fails the
    test. *)
Lemma while_inv {St : Type} (cond : St -> bool) (body : St -> result St)
      (Inv : St -> Prop) :
  (forall s s', Inv s -> cond s = true -> body s = Ok s' -> Inv s') ->
  forall fuel s s',
    Inv s -> while cond body fuel s = Ok s' -> Inv s' /\ cond s' = false.
Proof.
  intros Hbody fuel. induction fuel as [|fuel IH]; intros s s' HI Hrun;
    simpl in Hrun; destruct (cond s) eqn:Hc.
  - discriminate.
  - injection Hrun as <-. now split.
  - destruct (body s) as [s1|e] eqn:Hb; simpl in Hrun; [|discriminate].
    apply (IH s1); [|exact Hrun]. now apply (Hbody s).
  - injection Hrun as <-. now split.
Qed.

(** A loop whose test holds of every state its body can reach returns for
    no amount of fuel. *)
Lemma while_stuck {St : Type} (cond : St -> bool) (body : St -> result St)
      (Inv : St -> Prop) :
  (forall s, Inv s -> cond s = true) ->
  (forall s s', Inv s -> body s = Ok s' -> Inv s') ->
  forall fuel s s', Inv s -> while cond body fuel s <> Ok s'.
Proof.
  intros Hcond Hbody fuel s s' HI Hrun.
  destruct (@while_inv _ cond body Inv
              (fun a b Ha _ Hb => Hbody a b Ha Hb) fuel s s' HI Hrun)
    as [HI' Hc].
  rewrite (Hcond s' HI') in Hc. discriminate.
Qed.

(** With enough fuel to return, more fuel changes nothing. *)
Lemma while_more_fuel {St : Type} (cond : St -> bool) (body : St -> result St)
      (fuel fuel' : nat) (s s' : St) :
  while cond body fuel s = Ok s' -> fuel <= fuel' ->
  while cond body fuel' s = Ok s'.
Proof.
  revert fuel' s. induction fuel as [|fuel IH]; intros fuel' s Hrun Hle;
    simpl in Hrun; destruct (cond s) eqn:Hc.
  - discriminate.
  - destruct fuel'; simpl; now rewrite Hc.
  - destruct fuel' as [|fuel']; [lia|]. simpl. rewrite Hc.
    destruct (body s) as [s1|e]; simpl in *; [|discriminate].
    apply IH; [exact Hrun | lia].
  - destruct fuel'; simpl; now rewrite Hc.
Qed.

(** ** Slices of one width *)

Lemma nth_range_same (step k : nat) :
  nth_range step step k = (k * step, k * step + step).
Proof. destruct k; simpl; f_equal; lia. Qed.

Lemma map_const_repeat {A B : Type} (b : B) (l : list A) :
  map (fun _ => b) l = repeat b (length l).
Proof. induction l; simpl; congruence. Qed.

(** The number of examples in each slice a list of slices selects. *)
Lemma batch_sizes {A : Type} (l : list A) (step q : nat) :
  q * step < length l <= q * step + step ->
  map (fun r => length (slice l (fst r) (snd r))) (batch_ranges step step (S q))
  = repeat step q ++ [length l - q * step].
Proof.
  intros Hq. rewrite batch_ranges_S, map_app. f_equal.
  - unfold batch_ranges. rewrite map_map.
    transitivity (map (fun _ : nat => step) (seq 0 q));
      [|now rewrite map_const_repeat, length_seq].
    apply map_ext_in. intros k Hk. apply in_seq in Hk.
    rewrite nth_range_same, slice_length. simpl.
    assert (k * step + step <= q * step) by nia. lia.
  - simpl. rewrite nth_range_same, slice_length. simpl. f_equal. lia.
Qed.

(** ** The batch loop of a training epoch, in full *)

Section TrainEpochShape.

Context {Example Pretrain Tensor Model : Type}.
Variable forward : Model -> list Example -> Tensor.
Variable squeeze : Tensor -> list float.
Variable smooth_loss : list float -> list float -> float.
Variable backward_step : Model -> list Example -> list float -> Model.
Variable self : Trainer.
Variables (_X : list Example) (_Y : list float).
Variables (pretrain_x pretrain_actual : Pretrain).

Local Notation B := (train_batch_size self).
Local Notation total_obs := (length _X).
Local Notation run :=
  (train_epoch forward squeeze smooth_loss backward_step self _X _Y
               pretrain_x pretrain_actual).
Local Notation body :=
  (train_body forward squeeze smooth_loss backward_step self _X _Y
              pretrain_x pretrain_actual).
Local Notation replay :=
  (replay_batches forward squeeze smooth_loss backward_step _X _Y).

(** Training epoch, batch sizes: over more examples than the batch size [B]
    an epoch feeds [q] slices of exactly [B] examples and then one slice
    with the [total - q * B] examples left, where [q = (total - 1) / B];
    the last slice is never empty and never larger than [B], and one loss
    is recorded per slice. *)
Theorem train_epoch_batch_sizes (fuel : nat) (m : Model) :
  0 < B -> B < total_obs -> total_obs <= fuel ->
  exists c,
    run fuel m = Ok c /\
    map (fun r => length (slice _X (fst r) (snd r))) (tc_fed c)
    = repeat B ((total_obs - 1) / B) ++ [total_obs - (total_obs - 1) / B * B] /\
    length (tc_losses c) = S ((total_obs - 1) / B) /\
    0 < total_obs - (total_obs - 1) / B * B <= B.
Proof.
  intros HB Hlt Hfuel.
  destruct (@train_epoch_entered _ _ _ _ forward squeeze smooth_loss
              backward_step self _X _Y pretrain_x pretrain_actual fuel m
              HB Hlt Hfuel)
    as (c & q & Hrun & Hfed & Hlen & Hq).
  rewrite nth_range_same in Hq. simpl in Hq.
  assert (Hdiv : q = (total_obs - 1) / B).
  { apply (Nat.div_unique _ _ _ (total_obs - 1 - q * B)); nia. }
  rewrite <- Hdiv. exists c. split; [exact Hrun|].
  split; [|split; [exact Hlen | lia]].
  rewrite Hfed. apply batch_sizes. lia.
Qed.

(** Training epoch, replay: whatever an epoch returns, its model and its
    list of batch losses are those of taking the slices fed one after the
    other, each time recording the smooth loss of the current model on the
    slice and then stepping the model on that slice; nothing else touches
    the model, and the pretraining inputs play no part.  (The batch size is
    positive: line 133 divides by it before the loop.) *)
Theorem train_epoch_replays_batches (fuel : nat) (m : Model)
        (c : TrainCursor Model) :
  0 < B ->
  run fuel m = Ok c ->
  (tc_model c, tc_losses c) = replay (tc_fed c) m.
Proof.
  intros _ Hrun. unfold train_epoch in Hrun.
  apply (@while_inv _ _ body
           (fun c => (tc_model c, tc_losses c) = replay (tc_fed c) m))
    in Hrun; [tauto | | reflexivity].
  clear. intros s s' HI _ Hb.
  assert (Hbatch : forall a,
             (tc_model a, tc_losses a) = replay (tc_fed a) m ->
             (tc_model (train_batch forward squeeze smooth_loss backward_step
                                    self _X _Y pretrain_x pretrain_actual a),
              tc_losses (train_batch forward squeeze smooth_loss backward_step
                                     self _X _Y pretrain_x pretrain_actual a))
             = replay (tc_fed (train_batch forward squeeze smooth_loss
                                           backward_step self _X _Y
                                           pretrain_x pretrain_actual a)) m).
  { intros a Ha. unfold train_batch, replay_batches in *. simpl.
    rewrite fold_left_app, <- Ha. simpl. unfold replay_step, _custom_loss.
    simpl. now destruct (pretraining self). }
  unfold train_body in Hb.
  destruct (_ <=? _) in Hb; injection Hb as <-.
  - apply Hbatch. unfold train_advance. simpl. now apply Hbatch.
  - unfold train_advance. simpl. now apply Hbatch.
Qed.

End TrainEpochShape.

Lemma train_epoch_batch_sizes_witness :
  exists c,
    Toy.train_epoch 2 5 5 = Ok c /\
    map (fun r => length (slice (repeat 0 5) (fst r) (snd r))) (tc_fed c)
    = [2; 2; 1] /\
    length (tc_losses c) = 3.
Proof.
  destruct (@train_epoch_batch_sizes nat unit _ nat Toy.forward Toy.squeeze
              (Toy.table_loss []) Toy.backward_step
              (Toy.trainer 1 2 2 "wsd") (repeat 0 5) (repeat zero 5) tt tt
              5 0) as (c & Hrun & Hsizes & Hlen & _);
    [simpl; lia | simpl; lia | simpl; lia |].
  exists c. split; [exact Hrun|]. split; [exact Hsizes | exact Hlen].
Defined.

Lemma train_epoch_replays_batches_witness :
  exists c,
    Toy.train_epoch 2 5 5 = Ok c /\
    (tc_model c, tc_losses c)
    = replay_batches Toy.forward Toy.squeeze (Toy.table_loss [])
                     Toy.backward_step (repeat 0 5) (repeat zero 5)
                     (tc_fed c) 0.
Proof.
  eexists. split; [vm_compute; reflexivity|].
  apply (@train_epoch_replays_batches nat unit _ nat Toy.forward Toy.squeeze
           (Toy.table_loss []) Toy.backward_step (Toy.trainer 1 2 2 "wsd")
           (repeat 0 5) (repeat zero 5) tt tt 5 0); [simpl; lia|].
  vm_compute. reflexivity.
Defined.

(** ** Loops that run in step *)

(** Two loops whose tests agree and whose bodies fail together, or else keep
    the relation [R], return states related by [R] or fail with the same
    error. *)
Lemma while_sim {S1 S2 : Type} (R : S1 -> S2 -> Prop)
      (cond1 : S1 -> bool) (body1 : S1 -> result S1)
      (cond2 : S2 -> bool) (body2 : S2 -> result S2) :
  (forall a b, R a b -> cond1 a = cond2 b) ->
  (forall a b, R a b ->
     match body1 a, body2 b with
     | Ok a', Ok b' => R a' b'
     | Err e1, Err e2 => e1 = e2
     | _, _ => False
     end) ->
  forall fuel a b, R a b ->
    match while cond1 body1 fuel a, while cond2 body2 fuel b with
    | Ok a', Ok b' => R a' b'
    | Err e1, Err e2 => e1 = e2
    | _, _ => False
    end.
Proof.
  intros Hcond Hbody fuel. induction fuel as [|fuel IH]; intros a b HR;
    simpl; rewrite <- (Hcond a b HR); destruct (cond1 a); try assumption;
    try reflexivity.
  specialize (Hbody a b HR).
  destruct (body1 a) as [a'|e1], (body2 b) as [b'|e2]; simpl;
    try contradiction; [now apply IH | assumption].
Qed.

(** Loops with the same test and bodies that agree on every state are the
    same loop. *)
Lemma while_ext {St : Type} (cond : St -> bool) (body1 body2 : St -> result St) :
  (forall s, body1 s = body2 s) ->
  forall fuel s, while cond body1 fuel s = while cond body2 fuel s.
Proof.
  intros Hbody fuel. induction fuel as [|fuel IH]; intros s; simpl;
    [reflexivity|].
  destruct (cond s); [|reflexivity].
  rewrite Hbody. destruct (body2 s); simpl; [apply IH | reflexivity].
Qed.

Lemma for_each_ext {X St : Type} (body1 body2 : X -> St -> result (flow St)) :
  (forall x s, body1 x s = body2 x s) ->
  forall xs s, for_each body1 xs s = for_each body2 xs s.
Proof.
  intros Hbody xs. induction xs as [|x xs IH]; intros s; simpl;
    [reflexivity|].
  rewrite Hbody. destruct (body2 x s) as [[s'|s']|]; simpl;
    [apply IH | reflexivity | reflexivity].
Qed.

Lemma last_item_map {A B : Type} (f : A -> B) (l : list A) :
  last_item (map f l) = option_map f (last_item l).
Proof.
  induction l as [|x l IH]; [reflexivity|].
  destruct l as [|y l]; [reflexivity|]. exact IH.
Qed.

(** ** [predict] and [predict_grad], in full *)

Section PredictShape.

Context {Example Pretrain Tensor Model : Type}.
Variable forward : Model -> list Example -> Tensor.
Variable squeeze : Tensor -> list float.
Variables smooth_loss l1_loss : list float -> list float -> float.
Variable self : Trainer.
Variable _model : Model.
Variables (data_x : list Example) (data_y : list float).
Variable loss : option string.
Variables (pretrain_x pretrain_actual : Pretrain).

Local Notation T := (train_batch_size self).
Local Notation P := (predict_batch_size self).
Local Notation total_obs := (length data_x).
Local Notation batch :=
  (predict_batch forward squeeze smooth_loss l1_loss self _model data_x
                 data_y loss pretrain_x pretrain_actual).
Local Notation body :=
  (predict_body forward squeeze smooth_loss l1_loss self _model data_x
                data_y loss pretrain_x pretrain_actual).
Local Notation loop :=
  (predict_loop forward squeeze smooth_loss l1_loss self _model data_x
                data_y loss pretrain_x pretrain_actual).
Local Notation run :=
  (predict forward squeeze smooth_loss l1_loss self _model data_x
           data_y loss pretrain_x pretrain_actual).
Local Notation grad_batch :=
  (predict_grad_batch forward squeeze _model data_x).
Local Notation grad_body :=
  (predict_grad_body forward squeeze self _model data_x).
Local Notation grad_loop :=
  (predict_grad_loop forward squeeze self _model data_x).
Local Notation grad_run :=
  (predict_grad forward squeeze self _model data_x).

(** The cursors of [predict_grad] and [predict] that differ in the losses
    only. *)
Local Notation same_scores :=
  (fun a b : PredictCursor =>
     pc_i a = pc_i b /\ pc_j a = pc_j b /\ pc_yhat a = pc_yhat b /\
     pc_fed a = pc_fed b).

Lemma predict_grad_batch_sim (a b : PredictCursor) :
  same_scores a b ->
  match grad_batch a, batch b with
  | Ok a', Ok b' => same_scores a' b'
  | Err e1, Err e2 => e1 = e2
  | _, _ => False
  end.
Proof.
  intros (Hi & Hj & Hy & Hf).
  unfold predict_grad_batch, predict_batch. rewrite Hi, Hj, Hy, Hf.
  destruct (assign_slice _ _ _ _); simpl; [repeat split | reflexivity].
Qed.

Lemma predict_grad_body_sim (a b : PredictCursor) :
  same_scores a b ->
  match grad_body a, body b with
  | Ok a', Ok b' => same_scores a' b'
  | Err e1, Err e2 => e1 = e2
  | _, _ => False
  end.
Proof.
  intros HR. unfold predict_grad_body, predict_body.
  pose proof (predict_grad_batch_sim HR) as H1.
  destruct (grad_batch a) as [a1|e1], (batch b) as [b1|e2]; simpl;
    try contradiction; [|assumption].
  destruct H1 as (Hi & Hj & Hy & Hf).
  rewrite <- Hj.
  destruct (total_obs <=? pc_j a1 + T).
  - apply predict_grad_batch_sim. simpl. repeat split; congruence.
  - simpl. repeat split; congruence.
Qed.

(** [predict_grad] goes through the slices and assignments of [predict]: it
    returns the vector [predict] fills, and fails where [predict] fails. *)
Lemma predict_grad_loop_sim (fuel : nat) :
  match grad_loop fuel, loop fuel with
  | Ok a, Ok b => same_scores a b
  | Err e1, Err e2 => e1 = e2
  | _, _ => False
  end.
Proof.
  unfold predict_grad_loop, predict_loop.
  apply (@while_sim _ _ same_scores).
  - intros a b (_ & Hj & _). now rewrite Hj.
  - intros a b. apply predict_grad_body_sim.
  - simpl. repeat split.
Qed.

End PredictShape.

Section PredictTheorems.

Context {Example Pretrain Tensor Model : Type}.
Variable forward : Model -> list Example -> Tensor.
Variable squeeze : Tensor -> list float.
Variables smooth_loss l1_loss : list float -> list float -> float.
Variable self : Trainer.
Variable _model : Model.
Variables (data_x : list Example) (data_y : list float).
Variable loss : option string.
Variables (pretrain_x pretrain_actual : Pretrain).

Local Notation T := (train_batch_size self).
Local Notation P := (predict_batch_size self).
Local Notation total_obs := (length data_x).
Local Notation batch :=
  (predict_batch forward squeeze smooth_loss l1_loss self _model data_x
                 data_y loss pretrain_x pretrain_actual).
Local Notation body :=
  (predict_body forward squeeze smooth_loss l1_loss self _model data_x
                data_y loss pretrain_x pretrain_actual).
Local Notation loop :=
  (predict_loop forward squeeze smooth_loss l1_loss self _model data_x
                data_y loss pretrain_x pretrain_actual).
Local Notation run :=
  (predict forward squeeze smooth_loss l1_loss self _model data_x
           data_y loss pretrain_x pretrain_actual).
Local Notation grad_run :=
  (predict_grad forward squeeze self _model data_x).

(** Every slice [predict] feeds leaves one loss. *)
Lemma predict_loop_one_loss_per_slice (fuel : nat) (c : PredictCursor) :
  loop fuel = Ok c -> length (pc_losses c) = length (pc_fed c).
Proof.
  intros Hrun. unfold predict_loop in Hrun.
  apply (@while_inv _ _ body
           (fun c => length (pc_losses c) = length (pc_fed c)))
    in Hrun; [tauto | | reflexivity].
  clear. intros s s' HI _ Hb.
  assert (Hbatch : forall a a',
             length (pc_losses a) = length (pc_fed a) -> batch a = Ok a' ->
             length (pc_losses a') = length (pc_fed a')).
  { intros a a' Ha Hba. unfold predict_batch in Hba.
    destruct (assign_slice _ _ _ _); simpl in Hba; [|discriminate].
    injection Hba as <-. simpl. rewrite !length_app, Ha. reflexivity. }
  unfold predict_body in Hb.
  destruct (batch s) as [s1|] eqn:H1; simpl in Hb; [|discriminate].
  pose proof (Hbatch _ _ HI H1) as Hs1.
  destruct (_ <=? _) in Hb.
  - now apply (Hbatch (predict_advance self s1) s').
  - now injection Hb as <-.
Qed.

(** [predict] on few examples: with no more examples than the inference
    batch size, [predict] returns NaN for the loss and a vector of zeros,
    and [predict_grad] the same vector of zeros, whatever the model. *)
Theorem predict_small_data_never_calls_model (fuel : nat) :
  total_obs <= P ->
  run fuel = Ok (nan, repeat zero total_obs) /\
  grad_run fuel = Ok (repeat zero total_obs).
Proof.
  intros Hle. split.
  - unfold predict, predict_loop. rewrite while_skip; [reflexivity|].
    simpl. now apply Nat.ltb_ge.
  - unfold predict_grad, predict_grad_loop. rewrite while_skip; [reflexivity|].
    simpl. now apply Nat.ltb_ge.
Qed.


(** [predict] with a training batch size of 0: on more examples than the
    inference batch size the cursor stops moving after the first slice, and
    neither [predict] nor [predict_grad] ever returns. *)
Theorem predict_stalls_without_train_batch_size (fuel : nat) :
  train_batch_size self = 0 ->
  predict_batch_size self < length data_x ->
  (forall r,
      predict forward squeeze smooth_loss l1_loss self _model data_x data_y
              loss pretrain_x pretrain_actual fuel <> Ok r) /\
  (forall yhat,
      predict_grad forward squeeze self _model data_x fuel <> Ok yhat).
Proof.
  intros HT Hlt.
  assert (Hloop : forall c, loop fuel <> Ok c).
  { intros c. unfold predict_loop.
    apply (@while_stuck _ _ body (fun c => pc_j c = P)).
    - intros s Hs. apply Nat.ltb_lt. lia.
    - intros s s' Hs Hb. unfold predict_body in Hb.
      destruct (batch s) as [s1|] eqn:H1; simpl in Hb; [|discriminate].
      assert (Hj : pc_j s1 = P).
      { unfold predict_batch in H1.
        destruct (assign_slice _ _ _ _); simpl in H1; [|discriminate].
        now injection H1 as <-. }
      rewrite Hj, HT, Nat.add_0_r in Hb.
      destruct (total_obs <=? P) eqn:Hle.
      + apply Nat.leb_le in Hle. lia.
      + injection Hb as <-. simpl. lia.
    - reflexivity. }
  split.
  - intros r Hr. unfold predict in Hr.
    destruct (loop fuel) as [c|] eqn:Hc; [|discriminate].
    now apply (Hloop c).
  - intros yhat Hr. unfold predict_grad in Hr.
    pose proof (predict_grad_loop_sim forward squeeze smooth_loss l1_loss
                  self _model data_x data_y loss pretrain_x pretrain_actual
                  fuel) as Hsim.
    destruct (predict_grad_loop forward squeeze self _model data_x fuel)
      as [a|]; [|discriminate].
    destruct (loop fuel) as [c|] eqn:Hc; [|contradiction].
    now apply (Hloop c).
Qed.

End PredictTheorems.

Section PredictScores.

Context {Example Pretrain Tensor Model : Type}.
Variable forward : Model -> list Example -> Tensor.
Variable squeeze : Tensor -> list float.
Variables smooth_loss l1_loss : list float -> list float -> float.
Variable self : Trainer.
Variable _model : Model.
Variables (data_x : list Example) (data_y : list float).
Variable loss : option string.
Variables (pretrain_x pretrain_actual : Pretrain).

(** The model scores each example on its own. *)
Variable score : Example -> float.
Hypothesis forward_pointwise :
  forall xs, squeeze (forward _model xs) = map score xs.

Local Notation T := (train_batch_size self).
Local Notation P := (predict_batch_size self).
Local Notation total_obs := (length data_x).
Local Notation body :=
  (predict_body forward squeeze smooth_loss l1_loss self _model data_x
                data_y loss pretrain_x pretrain_actual).
Local Notation loop :=
  (predict_loop forward squeeze smooth_loss l1_loss self _model data_x
                data_y loss pretrain_x pretrain_actual).
Local Notation run :=
  (predict forward squeeze smooth_loss l1_loss self _model data_x
           data_y loss pretrain_x pretrain_actual).
Local Notation grad_run :=
  (predict_grad forward squeeze self _model data_x).

(** [predict] on many examples: with a positive training batch size and
    more examples than the inference batch size [P], [predict] returns the
    score of every example, in order, and the mean of one loss per slice
    fed; the slices are [[0, P)] and then [1 + (total - P - 1) / T] slices
    of the training batch size [T] laid end to end. *)
Theorem predict_scores_and_batches (fuel : nat) :
  0 < T -> P < total_obs -> total_obs <= fuel ->
  exists c,
    loop fuel = Ok c /\
    run fuel = Ok (np_mean (pc_losses c), map score data_x) /\
    pc_fed c = batch_ranges P T (2 + (total_obs - P - 1) / T) /\
    length (pc_losses c) = 2 + (total_obs - P - 1) / T.
Proof.
  intros HT Hlt Hfuel.
  destruct (@while_rule _ (fun c => pc_j c <? total_obs) body _
              (fun c => total_obs - pc_j c)
              (fun c => @predict_body_aligned _ _ _ _ forward squeeze
                          smooth_loss l1_loss self _model data_x data_y loss
                          pretrain_x pretrain_actual score forward_pointwise
                          c HT)
              fuel
              {| pc_i := 0; pc_j := P; pc_yhat := repeat zero total_obs;
                 pc_losses := []; pc_fed := [] |})
    as (c & Hrun & (Hinv & _ & Hy) & Hexit).
  - simpl. split; [now apply cursor_inv_init|]. split; [lia|].
    left. split; [assumption|]. now rewrite Nat.sub_0_r.
  - simpl. lia.
  - apply Nat.ltb_ge in Hexit.
    destruct Hy as [[Hj _] | [_ Hy]]; [lia|].
    destruct (cursor_inv_exit Hinv Hexit) as (q & Hfed & Hq & Hi).
    assert (Hcount : S q = 2 + (total_obs - P - 1) / T).
    { destruct q as [|k]; simpl in Hq; injection Hq as Hqi Hqj; [lia|].
      simpl. do 2 f_equal.
      apply (Nat.div_unique _ _ _ (total_obs - P - 1 - k * T)); nia. }
    exists c. split; [exact Hrun|].
    split; [unfold predict, predict_loop; rewrite Hrun; simpl; now rewrite Hy|].
    split; [now rewrite Hfed, Hcount|].
    rewrite (predict_loop_one_loss_per_slice _ _ _ _ _ _ _ _ _ _ _ _ Hrun).
    now rewrite Hfed, batch_ranges_length.
Qed.

End PredictScores.

Section PredictGradScores.

Context {Example Tensor Model : Type}.
Variable forward : Model -> list Example -> Tensor.
Variable squeeze : Tensor -> list float.
Variable self : Trainer.
Variable _model : Model.
Variable data_x : list Example.

(** The model scores each example on its own. *)
Variable score : Example -> float.
Hypothesis forward_pointwise :
  forall xs, squeeze (forward _model xs) = map score xs.

Local Notation T := (train_batch_size self).
Local Notation P := (predict_batch_size self).
Local Notation total_obs := (length data_x).

(** [predict_grad] on many examples: with a positive training batch size
    and more examples than the inference batch size, [predict_grad] returns
    the score of every example, in order. *)
Theorem predict_grad_scores_every_example (fuel : nat) :
  0 < T -> P < total_obs -> total_obs <= fuel ->
  predict_grad forward squeeze self _model data_x fuel
  = Ok (map score data_x).
Proof.
  intros HT Hlt Hfuel.
  pose (no_loss := fun _ _ : list float => zero).
  destruct (@predict_aligned _ unit _ _ forward squeeze no_loss no_loss self
              _model data_x [] None tt tt score forward_pointwise fuel
              HT Hlt Hfuel)
    as (c & q & Hloop & Hrun & _).
  pose proof (@predict_grad_loop_sim _ unit _ _ forward squeeze no_loss
                no_loss self _model data_x [] None tt tt fuel) as Hsim.
  rewrite Hloop in Hsim. unfold predict in Hrun.
  rewrite Hloop in Hrun. simpl in Hrun.
  unfold predict_grad.
  destruct (predict_grad_loop forward squeeze self _model data_x fuel)
    as [a|]; [|contradiction].
  destruct Hsim as (_ & _ & Hy & _). simpl. rewrite Hy. congruence.
Qed.

End PredictGradScores.

Lemma predict_small_data_never_calls_model_witness :
  Toy.predict 3 4 [7; 8] 2 = Ok (nan, [zero; zero]) /\
  Toy.predict_grad 3 4 [7; 8] 2 = Ok [zero; zero].
Proof.
  apply (@predict_small_data_never_calls_model nat unit _ nat Toy.forward
           Toy.squeeze (Toy.table_loss []) (Toy.table_loss [])
           (Toy.trainer 1 3 4 "wsd") 0 [7; 8] [zero; zero] None tt tt 2).
  simpl. lia.
Defined.


Lemma predict_stalls_without_train_batch_size_witness :
  (forall r, Toy.predict 0 2 [1; 2; 3] 9 <> Ok r) /\
  (forall yhat, Toy.predict_grad 0 2 [1; 2; 3] 9 <> Ok yhat).
Proof.
  apply (@predict_stalls_without_train_batch_size nat unit _ nat Toy.forward
           Toy.squeeze (Toy.table_loss []) (Toy.table_loss [])
           (Toy.trainer 1 0 2 "wsd") 0 [1; 2; 3] [zero; zero; zero] None
           tt tt 9); [reflexivity | simpl; lia].
Defined.

Lemma predict_scores_and_batches_witness :
  exists c,
    Toy.predict_loop 3 2 [1; 2; 3; 4; 5; 6; 7; 8; 9] 9 = Ok c /\
    Toy.predict 3 2 [1; 2; 3; 4; 5; 6; 7; 8; 9] 9
    = Ok (np_mean (pc_losses c), map of_nat [1; 2; 3; 4; 5; 6; 7; 8; 9]) /\
    pc_fed c = [(0, 2); (2, 5); (5, 8); (8, 11)] /\
    length (pc_losses c) = 4.
Proof.
  apply (@predict_scores_and_batches nat unit _ nat Toy.forward Toy.squeeze
           (Toy.table_loss []) (Toy.table_loss []) (Toy.trainer 1 3 2 "wsd")
           0 [1; 2; 3; 4; 5; 6; 7; 8; 9]
           (map (fun _ => zero) [1; 2; 3; 4; 5; 6; 7; 8; 9]) None tt tt
           of_nat (fun xs => eq_refl) 9); simpl; lia.
Defined.

Lemma predict_grad_scores_every_example_witness :
  Toy.predict_grad 3 2 [1; 2; 3; 4; 5; 6; 7; 8; 9] 9
  = Ok (map of_nat [1; 2; 3; 4; 5; 6; 7; 8; 9]).
Proof.
  apply (@predict_grad_scores_every_example nat _ nat Toy.forward Toy.squeeze
           (Toy.trainer 1 3 2 "wsd") 0 [1; 2; 3; 4; 5; 6; 7; 8; 9]
           of_nat (fun xs => eq_refl) 9); simpl; lia.
Defined.

(** ** [train], in full *)

Section TrainPretraining.

Context {Example Pretrain Tensor Model : Type}.
Variable new_model : Model.
Variable forward : Model -> list Example -> Tensor.
Variable squeeze : Tensor -> list float.
Variables smooth_loss l1_loss : list float -> list float -> float.
Variable backward_step : Model -> list Example -> list float -> Model.
Variable pearsonr : list float -> list float -> float.
Variable self : Trainer.
Variables (train_X : list Example) (train_Y : list float).
Variable dev : list Example * list float.
Variables (pretrain_x pretrain_actual : Pretrain).
Variables (other_x other_actual : Pretrain).
Variable flag : bool.
Variable fuel : nat.

Lemma train_epoch_pretraining (m : Model) :
  train_epoch forward squeeze smooth_loss backward_step
              (with_pretraining flag self) train_X train_Y
              other_x other_actual fuel m
  = train_epoch forward squeeze smooth_loss backward_step self
                train_X train_Y pretrain_x pretrain_actual fuel m.
Proof.
  unfold train_epoch. simpl. apply while_ext. intros s.
  unfold train_body, train_advance, train_batch, _custom_loss. simpl.
  now destruct flag, (pretraining self).
Qed.

Lemma predict_pretraining (m : Model) (data_x : list Example)
      (data_y : list float) :
  predict forward squeeze smooth_loss l1_loss (with_pretraining flag self)
          m data_x data_y None other_x other_actual fuel
  = predict forward squeeze smooth_loss l1_loss self
            m data_x data_y None pretrain_x pretrain_actual fuel.
Proof.
  unfold predict, predict_loop. simpl. f_equal. apply while_ext. intros s.
  unfold predict_body, predict_advance, predict_batch, _custom_loss. simpl.
  now destruct flag, (pretraining self).
Qed.

(** [train] and pretraining: the value of the [pretraining] flag and the
    tensors passed as [pretrain_x] and [pretrain_actual] change nothing in a
    run of [train]: the same epochs run, with the same models, metrics and
    checkpoints, and the same three lists are returned (or the same error
    is raised). *)
Theorem train_ignores_pretraining :
  train_run new_model forward squeeze smooth_loss l1_loss backward_step
            pearsonr (with_pretraining flag self) train_X train_Y dev
            other_x other_actual fuel
  = train_run new_model forward squeeze smooth_loss l1_loss backward_step
              pearsonr self train_X train_Y dev
              pretrain_x pretrain_actual fuel /\
  train new_model forward squeeze smooth_loss l1_loss backward_step
        pearsonr (with_pretraining flag self) train_X train_Y dev
        other_x other_actual fuel
  = train new_model forward squeeze smooth_loss l1_loss backward_step
          pearsonr self train_X train_Y dev
          pretrain_x pretrain_actual fuel.
Proof.
  assert (Hrun :
    train_run new_model forward squeeze smooth_loss l1_loss backward_step
              pearsonr (with_pretraining flag self) train_X train_Y dev
              other_x other_actual fuel
    = train_run new_model forward squeeze smooth_loss l1_loss backward_step
                pearsonr self train_X train_Y dev
                pretrain_x pretrain_actual fuel).
  { unfold train_run. simpl. apply for_each_ext. intros k s.
    unfold epoch_body. rewrite train_epoch_pretraining.
    destruct (train_epoch _ _ _ _ _ _ _ _ _ _ _) as [c|]; [|reflexivity].
    cbn [bind]. change (megaverid (with_pretraining flag self))
      with (megaverid self).
    destruct (megaverid self); [reflexivity|].
    unfold validation_branch. destruct dev as [dev_x dev_y].
    now rewrite predict_pretraining. }
  split; [exact Hrun|]. unfold train. now rewrite Hrun.
Qed.

End TrainPretraining.

Lemma model_before_app {Model : Type} (m : Model)
      (log more : list (EpochLog Model)) (j : nat) :
  j <= length log -> model_before m (log ++ more) j = model_before m log j.
Proof.
  intros Hj. destruct j as [|j]; [reflexivity|]. simpl.
  now rewrite nth_error_app1 by lia.
Qed.

Lemma model_before_snoc {Model : Type} (m : Model)
      (log : list (EpochLog Model)) (e : EpochLog Model) :
  model_before m (log ++ [e]) (S (length log)) = lg_model e.
Proof.
  simpl. rewrite nth_error_app2 by lia. now rewrite Nat.sub_diag.
Qed.

Section TrainShape.

Context {Example Pretrain Tensor Model : Type}.
Variable new_model : Model.
Variable forward : Model -> list Example -> Tensor.
Variable squeeze : Tensor -> list float.
Variables smooth_loss l1_loss : list float -> list float -> float.
Variable backward_step : Model -> list Example -> list float -> Model.
Variable pearsonr : list float -> list float -> float.
Variable self : Trainer.
Variables (train_X : list Example) (train_Y : list float).
Variable dev : list Example * list float.
Variables (pretrain_x pretrain_actual : Pretrain).
Variable fuel : nat.

Local Notation B := (train_batch_size self).
Local Notation body :=
  (epoch_body forward squeeze smooth_loss l1_loss backward_step pearsonr
              self train_X train_Y dev pretrain_x pretrain_actual fuel).
Local Notation run :=
  (train_run new_model forward squeeze smooth_loss l1_loss backward_step
             pearsonr self train_X train_Y dev pretrain_x pretrain_actual
             fuel).
Local Notation epoch_loop :=
  (train_epoch forward squeeze smooth_loss backward_step self train_X
               train_Y pretrain_x pretrain_actual fuel).
Local Notation dev_predict m :=
  (predict forward squeeze smooth_loss l1_loss self m (fst dev) (snd dev)
           None pretrain_x pretrain_actual fuel).

(** The entry [e] is what the epoch with index [k] leaves when it starts
    from the model [m]: the batch loop run from [m], the mean of its batch
    losses and, in validation mode, the loss and the correlation of
    [predict] over the dev set with the model the batch loop left. *)
Local Notation computed m k e :=
  (exists c,
     epoch_loop m = Ok c /\
     lg_epoch e = k /\ lg_fed e = tc_fed c /\ lg_model e = tc_model c /\
     lg_train_loss e = np_mean (tc_losses c) /\
     (megaverid self = false ->
      exists dev_loss preds,
        dev_predict (tc_model c) = Ok (dev_loss, preds) /\
        lg_dev_loss e = Some dev_loss /\
        lg_dev_r e = Some (pearsonr preds (snd dev)))).

(** One epoch adds one entry to the log, computed from the model the epoch
    started with; the model it leaves is the entry's, and the entry says
    whether the loop broke. *)
Lemma epoch_body_entry (k : nat) (st : TrainState Model)
      (f : flow (TrainState Model)) :
  body k st = Ok f ->
  exists e,
    computed (st_model st) k e /\
    match f with
    | Continue st' =>
        st_log st' = st_log st ++ [e] /\ st_model st' = lg_model e /\
        lg_break e = false
    | Break st' =>
        st_log st' = st_log st ++ [e] /\ st_model st' = lg_model e /\
        lg_break e = true
    end.
Proof.
  intros Hb. unfold epoch_body in Hb.
  destruct (floor_div _ _) as [pbar_total|]; [|discriminate].
  cbn [bind] in Hb.
  destruct (epoch_loop (st_model st)) as [c|] eqn:Hc; [|discriminate].
  cbn [bind] in Hb. destruct (megaverid self) eqn:Hmode.
  - unfold convergence_branch in Hb.
    destruct (if k =? 0 then _ else _) as [conv|]; [|discriminate].
    cbn [bind] in Hb.
    destruct conv; injection Hb as <-; eexists; (split; [exists c|]);
      cbn; repeat split; try reflexivity; discriminate.
  - unfold validation_branch in Hb. destruct dev as [dev_x dev_y].
    destruct (predict _ _ _ _ _ _ _ _ _ _ _ _) as [[dl preds]|] eqn:Hp;
      [|discriminate].
    cbn [bind] in Hb.
    destruct (if k =? 0 then _ else _) as [bad|]; [|discriminate].
    cbn [bind] in Hb.
    destruct (3 <=? bad) eqn:Hbad; injection Hb as <-; eexists;
      (split; [exists c|]); cbn; repeat split; try reflexivity;
      try exact Hbad; intros _; exists dl, preds; repeat split; exact Hp.
Qed.

(** What holds of the log at the top of epoch [k]: every entry was computed
    from the model the epoch before it left, and the current model is the
    one the last entry left. *)
Local Notation chained k st :=
  (length (st_log st) = k%nat /\
   st_model st = model_before new_model (st_log st) k /\
   forall j e, nth_error (st_log st) j = Some e ->
               computed (model_before new_model (st_log st) j) j e).

Lemma epoch_body_chained (k : nat) (st : TrainState Model)
      (f : flow (TrainState Model)) :
  chained k st -> body k st = Ok f ->
  match f with
  | Continue st' => chained (S k) st'
  | Break st' => chained (S k) st'
  end.
Proof.
  intros (Hlen & Hmod & Hall) Hb. subst k.
  destruct (epoch_body_entry _ _ Hb) as (e & Hcomp & Hf).
  assert (Hstep : forall st',
             st_log st' = st_log st ++ [e] -> st_model st' = lg_model e ->
             chained (S (length (st_log st))) st').
  { intros st' Hlog Hm. rewrite Hlog.
    split; [rewrite length_app; simpl; lia|].
    split; [now rewrite model_before_snoc|].
    intros j x Hj.
    destruct (Nat.lt_ge_cases j (length (st_log st))) as [Hlt | Hge].
    - rewrite nth_error_app1 in Hj by assumption.
      rewrite model_before_app by lia. now apply Hall.
    - rewrite nth_error_app2 in Hj by assumption.
      destruct (j - length (st_log st)) as [|n] eqn:Hn;
        [|destruct n; discriminate].
      injection Hj as <-.
      replace j with (length (st_log st)) by lia.
      rewrite model_before_app by lia. rewrite <- Hmod. exact Hcomp. }
  destruct f as [st'|st']; destruct Hf as (Hlog & Hm & _); now apply Hstep.
Qed.

(** Epochs of [train], chained: the model is created once, before the first
    epoch; every epoch that runs starts from the model the epoch before it
    left (checkpoints are written, never read back), and its log entry
    holds the slices its batch loop fed, the model it left, the mean of its
    batch losses and, in validation mode, the loss and correlation of
    [predict] over the dev set with that model. *)
Theorem train_epochs_chain (st : TrainState Model) (k : nat)
        (e : EpochLog Model) :
  0 < B ->
  run = Ok st ->
  nth_error (st_log st) k = Some e ->
  computed (model_before new_model (st_log st) k) k e /\
  st_model st = model_before new_model (st_log st) (length (st_log st)).
Proof.
  intros _ Hrun Hk.
  assert (Hfinal : exists n, chained n st).
  { destruct (@for_each_rule _ body (fun k st => chained k st)
                (fun k st => chained (S k) st) (epochs self)
                (fun k s f _ => @epoch_body_chained k s f)
                (epochs self) 0 (train_init new_model) st eq_refl)
      as [H | (n & _ & H)]; [| exact Hrun | eauto | eauto].
    simpl. split; [reflexivity|]. split; [reflexivity|].
    intros j x Hj. destruct j; discriminate. }
  destruct Hfinal as (n & Hlen & Hmod & Hall).
  split; [now apply Hall | now rewrite Hlen].
Qed.

(** Every entry of the log of a run was computed by its epoch, from the
    model the epoch before left. *)
Lemma train_run_computed (st : TrainState Model) (k : nat)
      (e : EpochLog Model) :
  run = Ok st ->
  nth_error (st_log st) k = Some e ->
  computed (model_before new_model (st_log st) k) k e.
Proof.
  intros Hrun Hk.
  destruct (@for_each_rule _ body (fun k st => chained k st)
              (fun k st => chained (S k) st) (epochs self)
              (fun k s f _ => @epoch_body_chained k s f)
              (epochs self) 0 (train_init new_model) st eq_refl)
    as [(_ & _ & Hall) | (n & _ & _ & _ & Hall)];
    [| exact Hrun | now apply Hall | now apply Hall].
  simpl. split; [reflexivity|]. split; [reflexivity|].
  intros j x Hj. destruct j; discriminate.
Qed.

End TrainShape.

(** ** Metrics of a log *)

Lemma strict_drops_rev_le (rs : list float) :
  strict_drops_rev rs <= pred (length rs).
Proof.
  induction rs as [|x rs IH]; [reflexivity|].
  destruct rs as [|y rs]; [reflexivity|].
  cbn [strict_drops_rev]. destruct (lt x y); [|lia].
  simpl in IH |- *. lia.
Qed.

(** A correlation cannot have dropped more often than there are epochs
    before it. *)
Lemma strict_drops_snoc_le (rs : list float) (r : float) :
  strict_drops (rs ++ [r]) <= length rs.
Proof.
  unfold strict_drops.
  pose proof (strict_drops_rev_le (rev (rs ++ [r]))) as H.
  rewrite length_rev, length_app in H. simpl in H. lia.
Qed.

Lemma log_rs_length_le {Model : Type} (log : list (EpochLog Model)) :
  length (log_rs log) <= length log.
Proof.
  induction log as [|e log IH]; [reflexivity|].
  unfold log_rs in *. simpl. rewrite length_app.
  destruct (lg_dev_r e); simpl; lia.
Qed.

(** No loss of a list is below the least loss of the list, and no
    correlation above the greatest. *)
Lemma least_loss_lower (losses : list float) (x : float) :
  In x losses -> lt x (least_loss losses) = false.
Proof.
  intros Hin. destruct (lt x (least_loss losses)) eqn:Hlt; [|reflexivity].
  pose proof Hlt as Hspec. apply least_loss_spec in Hspec as [_ Hall].
  rewrite Forall_forall in Hall. destruct (Hall x Hin) as [Hnan | Hxx].
  - destruct (lt_not_nan _ _ Hlt) as [Hn _]. congruence.
  - rewrite lt_irrefl in Hxx. discriminate.
Qed.

Lemma greatest_r_upper (rs : list float) (x : float) :
  In x rs -> gt x (greatest_r rs) = false.
Proof.
  intros Hin. destruct (gt x (greatest_r rs)) eqn:Hgt; [|reflexivity].
  pose proof Hgt as Hspec. apply greatest_r_spec in Hspec as [_ Hall].
  rewrite Forall_forall in Hall. destruct (Hall x Hin) as [Hnan | Hxx].
  - unfold gt in Hgt. change SFltb with lt in Hgt.
    destruct (lt_not_nan _ _ Hgt) as [_ Hn]. congruence.
  - unfold gt in Hxx. change SFltb with lt in Hxx.
    rewrite lt_irrefl in Hxx. discriminate.
Qed.

Lemma filter_snoc {A : Type} (f : A -> bool) (l : list A) (x : A) :
  filter f (l ++ [x]) = filter f l ++ (if f x then [x] else []).
Proof. rewrite filter_app. simpl. now destruct (f x). Qed.

Section LastSaved.

Context {Model : Type}.

Lemma log_ok_prefix (entry : list (EpochLog Model) -> EpochLog Model -> Prop)
      (log : list (EpochLog Model)) (x : EpochLog Model) :
  log_ok entry (log ++ [x]) ->
  log_ok entry log /\ entry log x /\
  Forall (fun e => lg_break e = false) log.
Proof.
  intros Hok. split; [|split].
  - intros before e after Hl.
    destruct (Hok before e (after ++ [x])) as [He Hbr].
    { rewrite Hl, <- app_assoc. reflexivity. }
    split; [exact He|]. intros _. apply Hbr. now destruct after.
  - now destruct (Hok log x [] eq_refl).
  - apply Forall_forall. intros e Hin.
    destruct (in_split _ _ Hin) as (before & after & Hl).
    destruct (Hok before e (after ++ [x])) as [_ Hbr].
    { rewrite Hl, <- app_assoc. reflexivity. }
    apply Hbr. now destruct after.
Qed.

(** In convergence mode the last epoch that wrote the checkpoint has the
    least loss of the log. *)
Lemma last_saved_least_loss (log : list (EpochLog Model)) :
  log_ok convergence_entry log ->
  match last_saved log with
  | Some e => In e log /\ lg_train_loss e = least_loss (log_losses log)
  | None => least_loss (log_losses log) = inf
  end.
Proof.
  induction log as [|x log IH] using rev_ind; intros Hok; [reflexivity|].
  destruct (log_ok_prefix log x Hok) as (Hpre & (_ & _ & _ & Hsaved & _) & _).
  specialize (IH Hpre). unfold last_saved in *.
  rewrite filter_snoc, log_losses_app.
  change (log_losses [x]) with [lg_train_loss x].
  rewrite least_loss_snoc, <- Hsaved.
  destruct (lg_saved x).
  - rewrite last_item_snoc. split; [|reflexivity].
    apply in_or_app. right. now left.
  - rewrite app_nil_r. destruct (last_item (filter lg_saved log)) as [e|].
    + destruct IH as [Hin Hloss]. split; [|exact Hloss].
      apply in_or_app. now left.
    + exact IH.
Qed.

(** In validation mode it has the greatest correlation of the log. *)
Lemma last_saved_greatest_r (log : list (EpochLog Model)) :
  log_ok validation_entry log ->
  match last_saved log with
  | Some e => In e log /\ lg_dev_r e = Some (greatest_r (log_rs log))
  | None => greatest_r (log_rs log) = neg_inf
  end.
Proof.
  induction log as [|x log IH] using rev_ind; intros Hok; [reflexivity|].
  destruct (log_ok_prefix log x Hok)
    as (Hpre & (_ & dl & r & _ & Hr & Hsaved & _) & _).
  specialize (IH Hpre). unfold last_saved in *.
  rewrite filter_snoc, (log_rs_snoc _ _ Hr), greatest_r_snoc, <- Hsaved.
  destruct (lg_saved x).
  - rewrite last_item_snoc. split; [|exact Hr].
    apply in_or_app. right. now left.
  - rewrite app_nil_r. destruct (last_item (filter lg_saved log)) as [e|].
    + destruct IH as [Hin Hbest]. split; [|exact Hbest].
      apply in_or_app. now left.
    + exact IH.
Qed.

End LastSaved.

Lemma last_item_None {A : Type} (l : list A) : last_item l = None -> l = [].
Proof.
  induction l as [|x l IH]; [reflexivity|].
  destruct l as [|y l]; [discriminate|]. intros H.
  specialize (IH H). discriminate.
Qed.

Section TrainHistories.

Context {Example Pretrain Tensor Model : Type}.
Variable new_model : Model.
Variable forward : Model -> list Example -> Tensor.
Variable squeeze : Tensor -> list float.
Variables smooth_loss l1_loss : list float -> list float -> float.
Variable backward_step : Model -> list Example -> list float -> Model.
Variable pearsonr : list float -> list float -> float.
Variable self : Trainer.
Variables (train_X : list Example) (train_Y : list float).
Variable dev : list Example * list float.
Variables (pretrain_x pretrain_actual : Pretrain).
Variable fuel : nat.

Local Notation B := (train_batch_size self).
Local Notation body :=
  (epoch_body forward squeeze smooth_loss l1_loss backward_step pearsonr
              self train_X train_Y dev pretrain_x pretrain_actual fuel).
Local Notation run :=
  (train_run new_model forward squeeze smooth_loss l1_loss backward_step
             pearsonr self train_X train_Y dev pretrain_x pretrain_actual
             fuel).
Local Notation convergence_ok :=
  (train_run_convergence new_model forward squeeze smooth_loss l1_loss
     backward_step pearsonr self train_X train_Y dev pretrain_x
     pretrain_actual fuel).
Local Notation validation_ok :=
  (train_run_validation new_model forward squeeze smooth_loss l1_loss
     backward_step pearsonr self train_X train_Y dev pretrain_x
     pretrain_actual fuel).

(** Final checkpoint, convergence mode: when [train] returns, the checkpoint
    file holds the model of the last epoch that wrote it, and no epoch that
    ran had a loss strictly below that epoch's; the file was never written
    only if no epoch had a loss below [inf]. *)
Theorem train_checkpoint_holds_least_loss (st : TrainState Model) :
  0 < B ->
  megaverid self = true ->
  run = Ok st ->
  match last_saved (st_log st) with
  | Some e =>
      last_item (st_saved st) = Some (lg_model e) /\
      In e (st_log st) /\
      forall e', In e' (st_log st) ->
                 lt (lg_train_loss e') (lg_train_loss e) = false
  | None =>
      st_saved st = [] /\
      forall e', In e' (st_log st) -> lt (lg_train_loss e') inf = false
  end.
Proof.
  intros _ Hmode Hrun.
  destruct (convergence_ok Hmode Hrun) as (Hok & (_ & _ & _ & Hsv) & _).
  pose proof (last_saved_least_loss Hok) as Hlast.
  unfold last_saved in *.
  destruct (last_item (filter lg_saved (st_log st))) as [e|] eqn:Hl.
  - destruct Hlast as [Hin Hloss].
    split; [now rewrite Hsv, last_item_map, Hl|]. split; [exact Hin|].
    intros e' Hin'. rewrite Hloss. apply least_loss_lower.
    unfold log_losses. now apply in_map.
  - apply last_item_None in Hl. rewrite Hl in Hsv.
    split; [exact Hsv|].
    intros e' Hin'. rewrite <- Hlast. apply least_loss_lower.
    unfold log_losses. now apply in_map.
Qed.

(** Final checkpoint, validation mode: when [train] returns, the checkpoint
    file holds the model of the last epoch that wrote it, and no epoch that
    ran had a dev correlation strictly above that epoch's; the file was
    never written only if no epoch had a correlation above [-inf]. *)
Theorem train_checkpoint_holds_greatest_correlation (st : TrainState Model) :
  0 < B ->
  megaverid self = false ->
  run = Ok st ->
  match last_saved (st_log st) with
  | Some e =>
      last_item (st_saved st) = Some (lg_model e) /\
      In e (st_log st) /\
      exists r,
        lg_dev_r e = Some r /\
        forall r', In r' (log_rs (st_log st)) -> gt r' r = false
  | None =>
      st_saved st = [] /\
      forall r', In r' (log_rs (st_log st)) -> gt r' neg_inf = false
  end.
Proof.
  intros _ Hmode Hrun.
  destruct (validation_ok Hmode Hrun) as (Hok & (_ & _ & _ & Hsv) & _).
  pose proof (last_saved_greatest_r Hok) as Hlast.
  unfold last_saved in *.
  destruct (last_item (filter lg_saved (st_log st))) as [e|] eqn:Hl.
  - destruct Hlast as [Hin Hbest].
    split; [now rewrite Hsv, last_item_map, Hl|]. split; [exact Hin|].
    eexists. split; [exact Hbest|].
    intros r' Hin'. now apply greatest_r_upper.
  - apply last_item_None in Hl. rewrite Hl in Hsv.
    split; [exact Hsv|].
    intros r' Hin'. rewrite <- Hlast. now apply greatest_r_upper.
Qed.

Lemma log_ok_In (entry : list (EpochLog Model) -> EpochLog Model -> Prop)
      (log : list (EpochLog Model)) (e : EpochLog Model) :
  log_ok entry log -> In e log -> exists before, entry before e.
Proof.
  intros Hok Hin. destruct (in_split _ _ Hin) as (before & after & Hl).
  exists before. now destruct (Hok _ _ _ Hl).
Qed.

Lemma log_rs_none (log : list (EpochLog Model)) :
  Forall (fun e => lg_dev_r e = None) log -> log_rs log = [].
Proof.
  induction 1 as [|e log He _ IH]; [reflexivity|].
  unfold log_rs in *. simpl. now rewrite He, IH.
Qed.

Lemma log_dev_losses_none (log : list (EpochLog Model)) :
  Forall (fun e => lg_dev_loss e = None) log -> log_dev_losses log = [].
Proof.
  induction 1 as [|e log He _ IH]; [reflexivity|].
  unfold log_dev_losses in *. simpl. now rewrite He, IH.
Qed.

Lemma log_rs_some (log : list (EpochLog Model)) :
  Forall (fun e => exists r, lg_dev_r e = Some r) log ->
  length (log_rs log) = length log.
Proof.
  induction 1 as [|e log [r He] _ IH]; [reflexivity|].
  unfold log_rs in *. simpl. rewrite He. simpl. now rewrite IH.
Qed.

Lemma log_dev_losses_some (log : list (EpochLog Model)) :
  Forall (fun e => exists l, lg_dev_loss e = Some l) log ->
  length (log_dev_losses log) = length log.
Proof.
  induction 1 as [|e log [r He] _ IH]; [reflexivity|].
  unfold log_dev_losses in *. simpl. rewrite He. simpl. now rewrite IH.
Qed.

(** The epoch loop ends after [epochs] epochs none of which broke, or with
    an epoch that broke, before which fewer than [epochs] epochs ran. *)
Lemma train_run_stops (st : TrainState Model) :
  run = Ok st ->
  (length (st_log st) = epochs self /\
   Forall (fun e => lg_break e = false) (st_log st)) \/
  (exists before e,
      st_log st = before ++ [e] /\ length before < epochs self /\
      lg_break e = true).
Proof.
  intros Hrun.
  destruct (@for_each_rule _ body
              (fun k st => length (st_log st) = k /\
                           Forall (fun e => lg_break e = false) (st_log st))
              (fun k st => exists before e,
                   st_log st = before ++ [e] /\ length before = k /\
                   lg_break e = true)
              (epochs self)) with (n := epochs self) (a := 0)
                                  (s := train_init new_model) (s' := st)
    as [H | (k & Hk & before & e & Hlog & Hlen & Hbr)].
  - intros k s f _ [Hlen Hnb] Hb.
    destruct (@epoch_body_entry _ _ _ _ forward squeeze smooth_loss l1_loss
                backward_step pearsonr self train_X train_Y dev pretrain_x
                pretrain_actual fuel k s f Hb) as (e & _ & Hf).
    destruct f as [s'|s']; destruct Hf as (Hlog & _ & Hbr).
    + rewrite Hlog. split; [rewrite length_app; simpl; lia|].
      apply Forall_app. split; [exact Hnb | now constructor].
    + now exists (st_log s), e.
  - reflexivity.
  - simpl. split; [reflexivity | constructor].
  - exact Hrun.
  - now left.
  - right. exists before, e. split; [exact Hlog|]. split; [lia | exact Hbr].
Qed.

(** The lists returned hold one entry per epoch that did not break. *)
Lemma completed_length (st : TrainState Model)
      (entry : list (EpochLog Model) -> EpochLog Model -> Prop) :
  log_ok entry (st_log st) -> run = Ok st ->
  (length (completed (st_log st)) = epochs self) \/
  (exists before e,
      st_log st = before ++ [e] /\ lg_break e = true /\ entry before e /\
      completed (st_log st) = before /\ length before < epochs self).
Proof.
  intros Hok Hrun.
  destruct (train_run_stops Hrun)
    as [[Hlen Hnb] | (before & e & Hlog & Hlen & Hbr)].
  - left. now rewrite completed_all.
  - right. exists before, e. rewrite Hlog in Hok |- *.
    destruct (log_ok_prefix before e Hok) as (_ & He & Hnb).
    split; [reflexivity|]. split; [exact Hbr|]. split; [exact He|].
    split; [|exact Hlen].
    rewrite completed_app, (completed_all Hnb). unfold completed. simpl.
    rewrite Hbr. simpl. apply app_nil_r.
Qed.

Local Notation train_call :=
  (train new_model forward squeeze smooth_loss l1_loss backward_step
         pearsonr self train_X train_Y dev pretrain_x pretrain_actual fuel).

(** Returned lists, convergence mode: the lists of dev losses and dev
    correlations come back empty, and the list of train losses has at most
    [epochs] entries and at least one when an epoch is asked for: the
    convergence test cannot stop the loop in its first epoch. *)
Theorem train_convergence_histories (tl dl rs : list float) :
  0 < B ->
  megaverid self = true ->
  train_call = Ok (tl, dl, rs) ->
  dl = [] /\ rs = [] /\
  Nat.min 1 (epochs self) <= length tl /\ length tl <= epochs self.
Proof.
  intros _ Hmode Ht. unfold train in Ht.
  destruct run as [st|] eqn:Hrun; [|discriminate].
  cbn in Ht. injection Ht as <- <- <-.
  destruct (convergence_ok Hmode Hrun) as (Hok & (Htl & Hdl & Hrs & _) & _).
  assert (Hall : Forall (fun e => lg_dev_loss e = None /\ lg_dev_r e = None)
                        (completed (st_log st))).
  { apply Forall_forall. intros e Hin. apply filter_In in Hin as [Hin _].
    destruct (log_ok_In e Hok Hin) as (before & _ & H1 & H2 & _). now split. }
  split; [|split].
  - rewrite Hdl. apply log_dev_losses_none.
    eapply Forall_impl; [|exact Hall]. now intros e [H _].
  - rewrite Hrs. apply log_rs_none.
    eapply Forall_impl; [|exact Hall]. now intros e [_ H].
  - rewrite Htl. unfold log_losses. rewrite length_map.
    destruct (completed_length Hok Hrun)
      as [Hlen | (before & e & Hlog & Hbr & He & Hc & Hlen)].
    + rewrite Hlen. lia.
    + rewrite Hc. destruct He as (_ & _ & _ & _ & Hb). rewrite Hbr in Hb.
      destruct before as [|x before]; [discriminate|].
      cbn [length] in *. lia.
Qed.

(** Returned lists, validation mode: the three lists have the same length,
    at most [epochs] and at least three when three epochs are asked for:
    the counter of bad epochs cannot reach 3 before the fourth epoch. *)
Theorem train_validation_histories (tl dl rs : list float) :
  0 < B ->
  megaverid self = false ->
  train_call = Ok (tl, dl, rs) ->
  length dl = length tl /\ length rs = length tl /\
  Nat.min 3 (epochs self) <= length tl /\ length tl <= epochs self.
Proof.
  intros _ Hmode Ht. unfold train in Ht.
  destruct run as [st|] eqn:Hrun; [|discriminate].
  cbn in Ht. injection Ht as <- <- <-.
  destruct (validation_ok Hmode Hrun) as (Hok & (Htl & Hdl & Hrs & _) & _).
  assert (Hall : Forall (fun e => (exists l, lg_dev_loss e = Some l) /\
                                  (exists r, lg_dev_r e = Some r))
                        (completed (st_log st))).
  { apply Forall_forall. intros e Hin. apply filter_In in Hin as [Hin _].
    destruct (log_ok_In e Hok Hin) as (before & _ & l & r & H1 & H2 & _).
    split; eauto. }
  assert (Hlen_tl : length (train_losses st) = length (completed (st_log st))).
  { rewrite Htl. unfold log_losses. now rewrite length_map. }
  split; [|split].
  - rewrite Hlen_tl, Hdl. apply log_dev_losses_some.
    eapply Forall_impl; [|exact Hall]. now intros e [H _].
  - rewrite Hlen_tl, Hrs. apply log_rs_some.
    eapply Forall_impl; [|exact Hall]. now intros e [_ H].
  - rewrite Hlen_tl.
    destruct (completed_length Hok Hrun)
      as [Hlen | (before & e & Hlog & Hbr & He & Hc & Hlen)].
    + rewrite Hlen. lia.
    + rewrite Hc. destruct He as (_ & l & r & _ & _ & _ & Hb).
      rewrite Hbr in Hb. symmetry in Hb. apply Nat.leb_le in Hb.
      pose proof (strict_drops_snoc_le (log_rs before) r).
      pose proof (log_rs_length_le before). lia.
Qed.

End TrainHistories.

(** ** Runs of [train], once more *)

Lemma train_epochs_chain_witness :
  exists st e,
    Toy.train_run 6 "wsd" Toy.steady_losses Toy.dropping_rs = Ok st /\
    nth_error (st_log st) 1 = Some e /\
    (exists c,
        train_epoch Toy.forward Toy.squeeze
                    (Toy.table_loss Toy.steady_losses) Toy.backward_step
                    (Toy.trainer 6 1 1 "wsd") [0; 0] [zero; zero] tt tt 2
                    (model_before 0 (st_log st) 1) = Ok c /\
        lg_fed e = tc_fed c /\ lg_model e = tc_model c) /\
    st_model st = model_before 0 (st_log st) (length (st_log st)).
Proof.
  eexists. eexists.
  split; [vm_compute; reflexivity|]. split; [vm_compute; reflexivity|].
  lazymatch goal with
  | |- (exists c, _ /\ lg_fed ?e = _ /\ _) /\ st_model ?st = _ =>
      edestruct (@train_epochs_chain
                   nat unit (list float) nat 0 Toy.forward Toy.squeeze
                   (Toy.table_loss Toy.steady_losses)
                   (Toy.table_loss Toy.steady_losses)
                   Toy.backward_step (Toy.table_r Toy.dropping_rs)
                   (Toy.trainer 6 1 1 "wsd")
                   [0; 0] [zero; zero] ([0; 0], [zero; zero]) tt tt 2 st 1 e)
        as [(c & Hc & _ & Hfed & Hmodel & _) Hfinal];
        [simpl; lia | vm_compute; reflexivity | vm_compute; reflexivity |]
  end.
  split; [|exact Hfinal]. exists c. split; [exact Hc|]. now split.
Defined.

Lemma train_checkpoint_holds_least_loss_witness :
  exists st,
    Toy.train_run 6 "megaverid" Toy.settling_losses [] = Ok st /\
    match last_saved (st_log st) with
    | Some e =>
        last_item (st_saved st) = Some (lg_model e) /\
        In e (st_log st) /\
        forall e', In e' (st_log st) ->
                   lt (lg_train_loss e') (lg_train_loss e) = false
    | None =>
        st_saved st = [] /\
        forall e', In e' (st_log st) -> lt (lg_train_loss e') inf = false
    end.
Proof.
  eexists. split; [vm_compute; reflexivity|].
  apply (@train_checkpoint_holds_least_loss
           nat unit (list float) nat 0 Toy.forward Toy.squeeze
           (Toy.table_loss Toy.settling_losses)
           (Toy.table_loss Toy.settling_losses)
           Toy.backward_step (Toy.table_r []) (Toy.trainer 6 1 1 "megaverid")
           [0; 0] [zero; zero] ([0; 0], [zero; zero]) tt tt 2);
    [simpl; lia | reflexivity | vm_compute; reflexivity].
Defined.

Lemma train_checkpoint_holds_greatest_correlation_witness :
  exists st,
    Toy.train_run 6 "wsd" Toy.steady_losses Toy.dropping_rs = Ok st /\
    match last_saved (st_log st) with
    | Some e =>
        last_item (st_saved st) = Some (lg_model e) /\
        In e (st_log st) /\
        exists r,
          lg_dev_r e = Some r /\
          forall r', In r' (log_rs (st_log st)) -> gt r' r = false
    | None =>
        st_saved st = [] /\
        forall r', In r' (log_rs (st_log st)) -> gt r' neg_inf = false
    end.
Proof.
  eexists. split; [vm_compute; reflexivity|].
  apply (@train_checkpoint_holds_greatest_correlation
           nat unit (list float) nat 0 Toy.forward Toy.squeeze
           (Toy.table_loss Toy.steady_losses)
           (Toy.table_loss Toy.steady_losses)
           Toy.backward_step (Toy.table_r Toy.dropping_rs)
           (Toy.trainer 6 1 1 "wsd")
           [0; 0] [zero; zero] ([0; 0], [zero; zero]) tt tt 2);
    [simpl; lia | reflexivity | vm_compute; reflexivity].
Defined.

Lemma train_convergence_histories_witness :
  exists tl dl rs,
    train 0 Toy.forward Toy.squeeze (Toy.table_loss Toy.settling_losses)
          (Toy.table_loss Toy.settling_losses) Toy.backward_step
          (Toy.table_r []) (Toy.trainer 6 1 1 "megaverid")
          [0; 0] [zero; zero] ([0; 0], [zero; zero]) tt tt 2
    = Ok (tl, dl, rs) /\
    dl = [] /\ rs = [] /\ Nat.min 1 6 <= length tl /\ length tl <= 6.
Proof.
  do 3 eexists. split; [vm_compute; reflexivity|].
  apply (@train_convergence_histories
           nat unit (list float) nat 0 Toy.forward Toy.squeeze
           (Toy.table_loss Toy.settling_losses)
           (Toy.table_loss Toy.settling_losses)
           Toy.backward_step (Toy.table_r []) (Toy.trainer 6 1 1 "megaverid")
           [0; 0] [zero; zero] ([0; 0], [zero; zero]) tt tt 2);
    [simpl; lia | reflexivity | vm_compute; reflexivity].
Defined.

Lemma train_validation_histories_witness :
  exists tl dl rs,
    train 0 Toy.forward Toy.squeeze (Toy.table_loss Toy.steady_losses)
          (Toy.table_loss Toy.steady_losses) Toy.backward_step
          (Toy.table_r Toy.dropping_rs) (Toy.trainer 6 1 1 "wsd")
          [0; 0] [zero; zero] ([0; 0], [zero; zero]) tt tt 2
    = Ok (tl, dl, rs) /\
    length dl = length tl /\ length rs = length tl /\
    Nat.min 3 6 <= length tl /\ length tl <= 6.
Proof.
  do 3 eexists. split; [vm_compute; reflexivity|].
  apply (@train_validation_histories
           nat unit (list float) nat 0 Toy.forward Toy.squeeze
           (Toy.table_loss Toy.steady_losses)
           (Toy.table_loss Toy.steady_losses)
           Toy.backward_step (Toy.table_r Toy.dropping_rs)
           (Toy.trainer 6 1 1 "wsd")
           [0; 0] [zero; zero] ([0; 0], [zero; zero]) tt tt 2);
    [simpl; lia | reflexivity | vm_compute; reflexivity].
Defined.

(** ** The constructor *)

Lemma string_length_append (a b : string) :
  String.length (a ++ b) = String.length a + String.length b.
Proof. induction a as [|x a IH]; simpl; congruence. Qed.

Lemma string_append_inv_head (c a b : string) :
  (c ++ a = c ++ b)%string -> a = b.
Proof.
  induction c as [|x c IH]; simpl; [trivial|].
  intros [= H]. now apply IH.
Qed.

Lemma string_append_inv_tail (a b c : string) :
  (a ++ c = b ++ c)%string -> a = b.
Proof.
  revert b. induction a as [|x a IH]; intros [|y b] H; simpl in H.
  - reflexivity.
  - apply (f_equal String.length) in H. simpl in H.
    rewrite string_length_append in H. lia.
  - apply (f_equal String.length) in H. simpl in H.
    rewrite string_length_append in H. lia.
  - injection H as -> H. f_equal. now apply IH.
Qed.

(** Checkpoint file names: two trainers built with the same file path,
    weight decay, pretraining data name and regularization write their
    checkpoints to the same file exactly when they have the same
    [data_name]; the number of epochs, the batch sizes and the pretraining
    flag play no part in the name. *)
Theorem init_checkpoint_file_shared_iff_same_data_name
        (optim_wt_decay : string) (epochs1 epochs2 : nat)
        (train_batch_size1 train_batch_size2 : nat)
        (data_name1 data_name2 : string)
        (pretrain_data_name : option string)
        (predict_batch_size1 predict_batch_size2 : nat)
        (pretraining1 pretraining2 : bool)
        (regularization : option string) (file_path : string)
        (t1 t2 : TrainerObject) :
  __init__ optim_wt_decay epochs1 train_batch_size1 (Some data_name1)
           pretrain_data_name predict_batch_size1 pretraining1
           regularization file_path = Constructed t1 ->
  __init__ optim_wt_decay epochs2 train_batch_size2 (Some data_name2)
           pretrain_data_name predict_batch_size2 pretraining2
           regularization file_path = Constructed t2 ->
  (best_model_file t1 = best_model_file t2 <-> data_name1 = data_name2).
Proof.
  unfold __init__. intros [= <-] [= <-]. cbn [best_model_file]. split.
  - intros H. apply string_append_inv_head in H.
    apply (string_append_inv_head "wsd_model_") in H.
    now apply string_append_inv_tail in H.
  - now intros ->.
Qed.

Lemma init_checkpoint_file_shared_iff_same_data_name_witness :
  exists t1 t2,
    __init__ "0.0" 3 64 (Some "wsd"%string) None 128 false None "out/"
    = Constructed t1 /\
    __init__ "0.0" 10 32 (Some "megaverid"%string) None 256 true None "out/"
    = Constructed t2 /\
    best_model_file t1 = "out/wsd_model_wsd_0.0_pre_None_None_.pth"%string /\
    (best_model_file t1 = best_model_file t2
     <-> "wsd"%string = "megaverid"%string).
Proof.
  eexists. eexists.
  split; [reflexivity|]. split; [reflexivity|]. split; [reflexivity|].
  apply (@init_checkpoint_file_shared_iff_same_data_name
           "0.0" 3 10 64 32 "wsd" "megaverid" None 128 256 false true None
           "out/"); reflexivity.
Defined.

(** * Checkpoints and early stopping, epoch by epoch *)


Section CheckpointAndStopping.

Context {Example Pretrain Tensor Model : Type}.
Variable new_model : Model.
Variable forward : Model -> list Example -> Tensor.
Variable squeeze : Tensor -> list float.
Variables smooth_loss l1_loss : list float -> list float -> float.
Variable backward_step : Model -> list Example -> list float -> Model.
Variable pearsonr : list float -> list float -> float.
Variable self : Trainer.
Variables (train_X : list Example) (train_Y : list float).
Variable dev : list Example * list float.
Variables (pretrain_x pretrain_actual : Pretrain).
Variable fuel : nat.

Local Notation body :=
  (epoch_body forward squeeze smooth_loss l1_loss backward_step pearsonr
              self train_X train_Y dev pretrain_x pretrain_actual fuel).
Local Notation run :=
  (train_run new_model forward squeeze smooth_loss l1_loss backward_step
             pearsonr self train_X train_Y dev pretrain_x pretrain_actual
             fuel).
Local Notation convergence_ok :=
  (train_run_convergence new_model forward squeeze smooth_loss l1_loss
     backward_step pearsonr self train_X train_Y dev pretrain_x
     pretrain_actual fuel).
Local Notation validation_ok :=
  (train_run_validation new_model forward squeeze smooth_loss l1_loss
     backward_step pearsonr self train_X train_Y dev pretrain_x
     pretrain_actual fuel).
Local Notation epoch_loop :=
  (train_epoch forward squeeze smooth_loss backward_step self train_X
               train_Y pretrain_x pretrain_actual fuel).
Local Notation dev_predict m :=
  (predict forward squeeze smooth_loss l1_loss self m (fst dev) (snd dev)
           None pretrain_x pretrain_actual fuel).




(** C6.  In the epoch with index [k] the checkpoint file is written exactly
    when the tracked metric strictly improves on the best of the epochs
    before: the train loss strictly below the least loss so far in
    convergence mode, the dev correlation strictly above the greatest so far
    in validation mode.  That is, the metric is strictly better than the
    initial best and than the metric of every epoch before (those that are
    NaN apart).  The metric is the one the epoch computed: the mean of the
    batch losses of its batch loop, run from the model the epoch before
    left, or the correlation of [predict] over the dev set with the model
    the batch loop left.  The file is written once for each such epoch,
    with the model that epoch left. *)
Theorem checkpoint_written_iff_metric_improves
        (st : TrainState Model) (k : nat) (e : EpochLog Model) :
  0 < train_batch_size self ->
  run = Ok st ->
  nth_error (st_log st) k = Some e ->
  (exists c,
      epoch_loop (model_before new_model (st_log st) k) = Ok c /\
      lg_model e = tc_model c /\
      lg_train_loss e = np_mean (tc_losses c) /\
      (megaverid self = false ->
       exists dev_loss preds,
         dev_predict (tc_model c) = Ok (dev_loss, preds) /\
         lg_dev_r e = Some (pearsonr preds (snd dev)))) /\
  (if megaverid self
   then
     (lg_saved e = true <->
      lt (lg_train_loss e)
         (least_loss (log_losses (firstn k (st_log st)))) = true) /\
     (lg_saved e = true <->
      lt (lg_train_loss e) inf = true /\
      Forall (fun y => is_nan y = true \/ lt (lg_train_loss e) y = true)
             (log_losses (firstn k (st_log st))))
   else
     exists r,
       lg_dev_r e = Some r /\
       (lg_saved e = true <->
        gt r (greatest_r (log_rs (firstn k (st_log st)))) = true) /\
       (lg_saved e = true <->
        gt r neg_inf = true /\
        Forall (fun y => is_nan y = true \/ gt r y = true)
               (log_rs (firstn k (st_log st))))) /\
  st_saved st = map (@lg_model Model) (filter lg_saved (st_log st)).
Proof.
  intros _ Hrun Hk.
  destruct (@train_run_computed _ _ _ _ new_model forward squeeze smooth_loss
              l1_loss backward_step pearsonr self train_X train_Y dev
              pretrain_x pretrain_actual fuel st k e Hrun Hk)
    as (c & Hc & _ & _ & Hm & Hl & Hd).
  split.
  { exists c. split; [exact Hc|]. split; [exact Hm|]. split; [exact Hl|].
    intros Hmode. destruct (Hd Hmode) as (dl & preds & Hp & _ & Hr).
    now exists dl, preds. }
  destruct (@epoch_saved_iff _ _ _ _ new_model forward squeeze smooth_loss
              l1_loss backward_step pearsonr self train_X train_Y dev
              pretrain_x pretrain_actual fuel st k e Hrun Hk) as [Hs Hsv].
  split; [|exact Hsv].
  destruct (megaverid self).
  - rewrite Hs. split; [reflexivity | apply least_loss_spec].
  - destruct Hs as (r & Hr & Hs). exists r. split; [exact Hr|].
    rewrite Hs. split; [reflexivity | apply greatest_r_spec].
Qed.


End CheckpointAndStopping.

Example toy_literal_tenth : Toy.f0_1 = decimal 1 1.
Proof. vm_compute. reflexivity. Qed.


Lemma checkpoint_written_iff_metric_improves_witness :
  (exists st e,
      Toy.train_run 6 "megaverid" Toy.settling_losses [] = Ok st /\
      nth_error (st_log st) 1 = Some e /\
      lg_train_loss e = Toy.f0_4 /\
      log_losses (firstn 1 (st_log st)) = [Toy.f0_5] /\
      lg_saved e = true /\
      st_saved st = [2; 4] /\
      (exists c,
          train_epoch Toy.forward Toy.squeeze
                      (Toy.table_loss Toy.settling_losses) Toy.backward_step
                      (Toy.trainer 6 1 1 "megaverid") [0; 0] [zero; zero]
                      tt tt 2 (model_before 0 (st_log st) 1) = Ok c /\
          lg_model e = tc_model c /\
          lg_train_loss e = np_mean (tc_losses c)) /\
      (lg_saved e = true <->
       lt (lg_train_loss e) (least_loss (log_losses (firstn 1 (st_log st))))
       = true) /\
      st_saved st = map (@lg_model nat) (filter lg_saved (st_log st))) /\
  (exists st e,
      Toy.train_run 6 "wsd" Toy.steady_losses Toy.dropping_rs = Ok st /\
      nth_error (st_log st) 1 = Some e /\
      lg_dev_r e = Some Toy.f0_4 /\
      log_rs (firstn 1 (st_log st)) = [Toy.f0_5] /\
      lg_saved e = false /\
      st_saved st = [2] /\
      (exists c dev_loss preds,
          train_epoch Toy.forward Toy.squeeze
                      (Toy.table_loss Toy.steady_losses) Toy.backward_step
                      (Toy.trainer 6 1 1 "wsd") [0; 0] [zero; zero]
                      tt tt 2 (model_before 0 (st_log st) 1) = Ok c /\
          lg_model e = tc_model c /\
          predict Toy.forward Toy.squeeze
                  (Toy.table_loss Toy.steady_losses)
                  (Toy.table_loss Toy.steady_losses)
                  (Toy.trainer 6 1 1 "wsd") (tc_model c) [0; 0] [zero; zero]
                  None tt tt 2 = Ok (dev_loss, preds) /\
          lg_dev_r e
          = Some (Toy.table_r Toy.dropping_rs preds [zero; zero])) /\
      (exists r,
          lg_dev_r e = Some r /\
          (lg_saved e = true <->
           gt r (greatest_r (log_rs (firstn 1 (st_log st)))) = true)) /\
      st_saved st = map (@lg_model nat) (filter lg_saved (st_log st))).
Proof.
  split.
  - eexists. eexists.
    split; [vm_compute; reflexivity|]. split; [vm_compute; reflexivity|].
    do 4 (split; [vm_compute; reflexivity|]).
    lazymatch goal with
    | |- (exists c, _ /\ lg_model ?e = _ /\ _) /\ _ /\ st_saved ?st = _ =>
        edestruct (@checkpoint_written_iff_metric_improves
                     nat unit (list float) nat 0 Toy.forward Toy.squeeze
                     (Toy.table_loss Toy.settling_losses)
                     (Toy.table_loss Toy.settling_losses)
                     Toy.backward_step (Toy.table_r [])
                     (Toy.trainer 6 1 1 "megaverid")
                     [0; 0] [zero; zero] ([0; 0], [zero; zero]) tt tt 2
                     st 1 e)
          as [(c & Hc & Hm & Hl & _) [Hiff Hsv]];
          [simpl; lia | vm_compute; reflexivity | vm_compute; reflexivity |]
    end.
    split; [exists c; split; [exact Hc|]; split; [exact Hm | exact Hl]|].
    split; [exact (proj1 Hiff) | exact Hsv].
  - eexists. eexists.
    split; [vm_compute; reflexivity|]. split; [vm_compute; reflexivity|].
    do 4 (split; [vm_compute; reflexivity|]).
    lazymatch goal with
    | |- (exists c dev_loss preds, _ /\ lg_model ?e = _ /\ _) /\ _ /\
         st_saved ?st = _ =>
        edestruct (@checkpoint_written_iff_metric_improves
                     nat unit (list float) nat 0 Toy.forward Toy.squeeze
                     (Toy.table_loss Toy.steady_losses)
                     (Toy.table_loss Toy.steady_losses)
                     Toy.backward_step (Toy.table_r Toy.dropping_rs)
                     (Toy.trainer 6 1 1 "wsd")
                     [0; 0] [zero; zero] ([0; 0], [zero; zero]) tt tt 2
                     st 1 e)
          as [(c & Hc & Hm & _ & Hd) [(r & Hr & Hiff & _) Hsv]];
          [simpl; lia | vm_compute; reflexivity | vm_compute; reflexivity |]
    end.
    destruct (Hd eq_refl) as (dl & preds & Hp & Hdr).
    split; [exists c, dl, preds; repeat split; assumption|].
    split; [exists r; split; [exact Hr | exact Hiff] | exact Hsv].
Defined.

